(** * Ford FG Falcon ICC HVAC display: a shallow embedding of [monochrome.py]

    The development follows the layout of the program: the [HVACState]
    record, the display panel ([HVACDisplay]) with its seven-segment glyph
    renderer, the two click dispatchers ([HVACButtons], [HVACSliders]) and
    the application ([FordFGHVACApp]) whose callbacks mutate the state, print
    a simulated bus line and redraw the display.

    Python [int] is [Z]; Python [float] is the kernel's binary64 [float], so
    that [set_temp += 0.5] and [set_temp < 32] are the very IEEE operations
    the interpreter runs; [str] is [string]. *)

From Stdlib Require Import ZArith List String Ascii Bool Lia.
From Stdlib Require Import Floats Uint63 DecimalString QArith.
Import ListNotations.

Local Open Scope string_scope.
Local Open Scope Z_scope.

(* ================================================================== *)
(** ** Python built-ins used by the program *)
(* ================================================================== *)

Module Py.

(** [range(n)] *)
Definition range (n : nat) : list Z := map Z.of_nat (seq 0 n).

(** [range(start, stop, step)] for a positive step, [count] elements. *)
Definition range_step (start step : Z) (count : nat) : list Z :=
  map (fun i => start + Z.of_nat i * step) (seq 0 count).

(** Iterating a [str] yields its one-character strings. *)
Fixpoint chars (s : string) : list string :=
  match s with
  | EmptyString => []
  | String c rest => String c EmptyString :: chars rest
  end.

(** [str(n)] for an [int]. *)
Definition str_int (n : Z) : string := NilZero.string_of_int (Z.to_int n).

Fixpoint zeros (n : nat) : string :=
  match n with
  | O => EmptyString
  | S k => String "0"%char (zeros k)
  end.

(** The [0] flag of the format mini-language: the padding zeros go
    between the sign and the digits, up to the minimum width. *)
Definition zero_pad (width : nat) (sign body : string) : string :=
  sign ++ zeros (width - String.length sign - String.length body) ++ body.

(** [format(n, "02d")] *)
Definition format_02d (n : Z) : string :=
  zero_pad 2 (if n <? 0 then "-" else "") (str_int (Z.abs n)).

(** Nearest integer to [n / d] ([d > 0]), ties to the even one: the
    rounding of a correctly rounded decimal conversion. *)
Definition round_half_even (n d : Z) : Z :=
  let q := n / d in
  let r := n mod d in
  match 2 * r ?= d with
  | Lt => q
  | Gt => q + 1
  | Eq => if Z.even q then q else q + 1
  end.

(** Tenths of the magnitude [m * 2^e], rounded. *)
Definition tenths (m : positive) (e : Z) : Z :=
  if 0 <=? e then Z.pos m * 10 * 2 ^ e
  else round_half_even (Z.pos m * 10) (2 ^ (- e)).

Definition fixed_1 (t : Z) : string :=
  str_int (t / 10) ++ "." ++ str_int (t mod 10).

(** [format(x, "04.1f")]: one digit after the point, correctly rounded
    from the exact binary value, zero-padded to four characters. *)
Definition format_04_1f (x : float) : string :=
  match Prim2SF x with
  | S754_zero s => zero_pad 4 (if s then "-" else "") "0.0"
  | S754_infinity s => zero_pad 4 (if s then "-" else "") "inf"
  | S754_nan => zero_pad 4 "" "nan"
  | S754_finite s m e =>
      zero_pad 4 (if s then "-" else "") (fixed_1 (tenths m e))
  end.

(** The exact rational value of a finite float: [m * 2^e], signed. *)
Definition magnitude (m : positive) (e : Z) : Q :=
  if 0 <=? e then inject_Z (Z.pos m * 2 ^ e)
  else (Z.pos m # Z.to_pos (2 ^ (- e)))%Q.

Definition value (x : float) : option Q :=
  match Prim2SF x with
  | S754_zero _ => Some 0%Q
  | S754_finite s m e => Some (if s then Qopp (magnitude m e) else magnitude m e)
  | _ => None
  end.

(** [d.get(key, default)] on a dict literal, kept as its list of items. *)
Fixpoint dict_get {V : Type} (d : list (string * V)) (key : string) (default : V) : V :=
  match d with
  | [] => default
  | (k, v) :: rest => if String.eqb k key then v else dict_get rest key default
  end.

Definition keys {V : Type} (d : list (string * V)) : list string := map fst d.

(** Truth value of an [int]. *)
Definition truthy (n : Z) : bool := negb (n =? 0).

End Py.

(* ================================================================== *)
(** ** State *)
(* ================================================================== *)

Record HVACState : Type := mkHVACState {
  set_temp : float;
  outside_temp : Z;
  fan_speed : Z;
  ac_on : bool;
  auto_mode : bool;
  front_defrost : bool;
  rear_defrost : bool;
  hours : Z;
  minutes : Z
}.

(** The dataclass defaults. *)
Definition HVACState_default : HVACState :=
  {| set_temp := 23.5%float;
     outside_temp := -12;
     fan_speed := 5;
     ac_on := false;
     auto_mode := true;
     front_defrost := true;
     rear_defrost := true;
     hours := 13;
     minutes := 28 |}.

(** Attribute assignments [self.state.<field> = v]. *)
Definition with_set_temp (v : float) (s : HVACState) : HVACState :=
  mkHVACState v (outside_temp s) (fan_speed s) (ac_on s) (auto_mode s)
              (front_defrost s) (rear_defrost s) (hours s) (minutes s).
Definition with_outside_temp (v : Z) (s : HVACState) : HVACState :=
  mkHVACState (set_temp s) v (fan_speed s) (ac_on s) (auto_mode s)
              (front_defrost s) (rear_defrost s) (hours s) (minutes s).
Definition with_fan_speed (v : Z) (s : HVACState) : HVACState :=
  mkHVACState (set_temp s) (outside_temp s) v (ac_on s) (auto_mode s)
              (front_defrost s) (rear_defrost s) (hours s) (minutes s).
Definition with_ac_on (v : bool) (s : HVACState) : HVACState :=
  mkHVACState (set_temp s) (outside_temp s) (fan_speed s) v (auto_mode s)
              (front_defrost s) (rear_defrost s) (hours s) (minutes s).
Definition with_auto_mode (v : bool) (s : HVACState) : HVACState :=
  mkHVACState (set_temp s) (outside_temp s) (fan_speed s) (ac_on s) v
              (front_defrost s) (rear_defrost s) (hours s) (minutes s).
Definition with_front_defrost (v : bool) (s : HVACState) : HVACState :=
  mkHVACState (set_temp s) (outside_temp s) (fan_speed s) (ac_on s) (auto_mode s)
              v (rear_defrost s) (hours s) (minutes s).
Definition with_rear_defrost (v : bool) (s : HVACState) : HVACState :=
  mkHVACState (set_temp s) (outside_temp s) (fan_speed s) (ac_on s) (auto_mode s)
              (front_defrost s) v (hours s) (minutes s).
Definition with_hours (v : Z) (s : HVACState) : HVACState :=
  mkHVACState (set_temp s) (outside_temp s) (fan_speed s) (ac_on s) (auto_mode s)
              (front_defrost s) (rear_defrost s) v (minutes s).
Definition with_minutes (v : Z) (s : HVACState) : HVACState :=
  mkHVACState (set_temp s) (outside_temp s) (fan_speed s) (ac_on s) (auto_mode s)
              (front_defrost s) (rear_defrost s) (hours s) v.

(* ================================================================== *)
(** ** The drawing surface *)
(* ================================================================== *)

(** A canvas coordinate.  Most are integers; the clock ticks and the
    snowflake rays are placed with [math.cos] and [math.sin], which are kept
    symbolic: [px_cos c r deg] is [c + r * math.cos(math.radians(deg))]. *)
Inductive coord : Type :=
| px (n : Z)
| px_cos (c r deg : Z)
| px_sin (c r deg : Z).

Coercion px : Z >-> coord.

Record font : Type := mkFont { family : string; size : Z; bold : bool }.

Inductive anchor : Type := anchor_center | anchor_w.

(** The items the program creates on a [tk.Canvas].  Every item is drawn in
    [FG_COLOR]; [filled] tells [fill=FG_COLOR] from [fill='']; [arrow] is
    [arrow=tk.LAST] with the arrow shape (8, 10, 4). *)
Inductive canvas_item : Type :=
| create_line (coords : list coord) (width : Z) (arrow : bool)
| create_text (x y : Z) (text : string) (fnt : font) (anch : anchor)
| create_oval (x1 y1 x2 y2 : Z) (filled : bool) (width : Z)
| create_polygon (coords : list Z) (filled : bool) (width : Z)
| create_rectangle (x1 y1 x2 y2 : Z) (filled : bool) (width : Z).

(* ================================================================== *)
(** ** Main display panel *)
(* ================================================================== *)

Module HVACDisplay.

Local Open Scope list_scope.

(** Segment patterns, A to G. *)
Definition segs : Type := (Z * Z * Z * Z * Z * Z * Z)%type.

Definition patterns : list (string * segs) :=
  [ ("0", (1,1,1,1,1,1,0));
    ("1", (0,1,1,0,0,0,0));
    ("2", (1,1,0,1,1,0,1));
    ("3", (1,1,1,1,0,0,1));
    ("4", (0,1,1,0,0,1,1));
    ("5", (1,0,1,1,0,1,1));
    ("6", (1,0,1,1,1,1,1));
    ("7", (1,1,1,0,0,0,0));
    ("8", (1,1,1,1,1,1,1));
    ("9", (1,1,1,1,0,1,1));
    ("-", (0,0,0,0,0,0,1));
    (" ", (0,0,0,0,0,0,0)) ].

Definition all_off : segs := (0,0,0,0,0,0,0).

Definition when (cond : Z) (items : list canvas_item) : list canvas_item :=
  if Py.truthy cond then items else [].

(** Draw a 7-segment digit. *)
Definition _draw_7seg (x y : Z) (digit : string) (size : string) : list canvas_item :=
  let '(w, h, t) := if String.eqb size "large" then (24, 44, 5) else (12, 20, 3) in
  let '(sa, sb, sc, sd, se, sf, sg) := Py.dict_get patterns digit all_off in
  (* Segment A (top) *)
  when sa [create_polygon
             [x + t; y;  x + w - t; y;  x + w - t - 2; y + t;  x + t + 2; y + t] true 1] ++
  (* Segment B (top right) *)
  when sb [create_polygon
             [x + w; y + t;  x + w; y + h / 2 - 2;
              x + w - t; y + h / 2 - 2;  x + w - t; y + t + 2] true 1] ++
  (* Segment C (bottom right) *)
  when sc [create_polygon
             [x + w; y + h / 2 + 2;  x + w; y + h - t;
              x + w - t; y + h - t - 2;  x + w - t; y + h / 2 + 2] true 1] ++
  (* Segment D (bottom) *)
  when sd [create_polygon
             [x + t; y + h;  x + w - t; y + h;
              x + w - t - 2; y + h - t;  x + t + 2; y + h - t] true 1] ++
  (* Segment E (bottom left) *)
  when se [create_polygon
             [x; y + h / 2 + 2;  x; y + h - t;
              x + t; y + h - t - 2;  x + t; y + h / 2 + 2] true 1] ++
  (* Segment F (top left) *)
  when sf [create_polygon
             [x; y + t;  x; y + h / 2 - 2;
              x + t; y + h / 2 - 2;  x + t; y + t + 2] true 1] ++
  (* Segment G (middle) *)
  when sg [create_polygon
             [x + t + 1; y + h / 2 - t / 2;  x + w - t - 1; y + h / 2 - t / 2;
              x + w - t - 1; y + h / 2 + t / 2;  x + t + 1; y + h / 2 + t / 2] true 1].

(** Draw small 7-segment digit for outside temp. *)
Definition _draw_small_7seg (x y : Z) (digit : string) : list canvas_item :=
  _draw_7seg x y digit "small".

(** Car silhouette icon. *)
Definition _draw_car (cx cy : Z) : list canvas_item :=
  [ create_polygon
      [cx - 18; cy + 5;  cx - 14; cy - 1;  cx - 7; cy - 6;
       cx + 5; cy - 6;  cx + 11; cy - 1;  cx + 16; cy + 5] false 2;
    create_oval (cx - 14) (cy + 2) (cx - 6) (cy + 10) false 2;
    create_oval (cx + 4) (cy + 2) (cx + 12) (cy + 10) false 2 ].

(** Front windshield defrost icon. *)
Definition _draw_front_defrost (cx cy : Z) : list canvas_item :=
  [ create_polygon
      [cx - 22; cy + 18;  cx - 14; cy - 18;  cx + 14; cy - 18;  cx + 22; cy + 18]
      false 2 ] ++
  map (fun offset =>
         let y_start := cy - 12 in
         create_line
           (flat_map (fun i => [px (cx + offset + (if i mod 2 =? 0 then 4 else -4));
                                px (y_start + i * 7)])
                     (Py.range 5))
           2 false)
      [-8; 0; 8] ++
  [ create_text cx (cy + 30) "Front" (mkFont "Arial" 9 false) anchor_center ].

(** Person with airflow arrows. *)
Definition _draw_airflow_person (cx cy : Z) : list canvas_item :=
  [ create_line [px (cx - 45); px (cy - 20); px (cx - 20); px (cy - 20)] 2 true;
    create_oval (cx - 5) (cy - 30) (cx + 10) (cy - 15) false 2;
    create_line [px (cx + 2); px (cy - 15); px (cx - 2); px (cy + 5)] 2 false;
    create_line [px (cx - 15); px (cy + 20); px (cx - 10); px (cy - 5)] 2 false;
    create_line [px (cx - 45); px (cy + 10); px (cx - 20); px (cy + 10)] 2 true;
    create_line [px (cx - 15); px (cy + 20); px (cx + 15); px (cy + 20)] 2 false;
    create_line [px (cx - 2); px (cy + 5); px (cx + 12); px (cy + 20)] 2 false ].

(** Asterisk/snowflake symbol. *)
Definition _draw_snowflake (cx cy : Z) : list canvas_item :=
  map (fun angle =>
         create_line [px cx; px cy; px_cos cx 8 angle; px_sin cy 8 angle] 2 false)
      (Py.range_step 0 60 6).

(** *** The sections of [draw], in the order of the source *)

Definition clock_cx : Z := 70.
Definition clock_cy : Z := 68.
Definition clock_radius : Z := 52.

Definition draw_clock (state : HVACState) : list canvas_item :=
  map (fun i =>
         let angle := i * 6 - 90 in
         let '(inner_r, outer_r, width) :=
           if i mod 5 =? 0 then (clock_radius - 9, clock_radius, 2)
           else (clock_radius - 5, clock_radius, 1) in
         create_line [px_cos clock_cx inner_r angle; px_sin clock_cy inner_r angle;
                      px_cos clock_cx outer_r angle; px_sin clock_cy outer_r angle]
                     width false)
      (Py.range 60) ++
  (let time_str :=
     (Py.format_02d (hours state) ++ ":" ++ Py.format_02d (minutes state))%string in
   [ create_text clock_cx (clock_cy - 5) time_str (mkFont "Consolas" 18 true)
                 anchor_center ]) ++
  _draw_car clock_cx (clock_cy + 28).

Definition draw_icons : list canvas_item :=
  [ create_text 138 48 "Auto" (mkFont "Arial" 13 true) anchor_w ] ++
  _draw_front_defrost 200 55 ++
  _draw_airflow_person 295 60 ++
  [ create_oval 370 45 382 57 true 1;
    create_text 408 72 "Rear" (mkFont "Arial" 9 false) anchor_center ].

Definition draw_outside_temp : list canvas_item :=
  [ create_text 310 15 "Outside" (mkFont "Arial" 10 false) anchor_w ] ++
  _draw_small_7seg 365 8 "-" ++
  _draw_small_7seg 378 8 "1" ++
  _draw_small_7seg 394 8 "2" ++
  [ create_text 415 15 "°C" (mkFont "Arial" 10 false) anchor_w ].

Definition temp_x : Z := 455.
Definition temp_y : Z := 28.

(** One turn of the loop over [temp_str]: the pen position and the items
    created so far. *)
Definition draw_temp_char (acc : Z * list canvas_item) (char : string)
  : Z * list canvas_item :=
  let '(x_pos, items) := acc in
  if String.eqb char "." then
    (x_pos + 10,
     items ++ [create_oval x_pos (temp_y + 42) (x_pos + 6) (temp_y + 48) true 1])
  else
    (x_pos + 32, items ++ _draw_7seg x_pos temp_y char "large").

Definition draw_set_temp (state : HVACState) : list canvas_item :=
  [ create_text 480 12 "Set Temp" (mkFont "Arial" 10 false) anchor_w ] ++
  (let temp_str := Py.format_04_1f (set_temp state) in
   let '(x_pos, items) := fold_left draw_temp_char (Py.chars temp_str) (temp_x, []) in
   items ++
   [ create_text (x_pos + 5) (temp_y + 5) "°" (mkFont "Arial" 14 true) anchor_w ]).

Definition draw_fan (state : HVACState) : list canvas_item :=
  _draw_snowflake 462 95 ++
  (let bar_x := 482 in
   let bar_y := 88 in
   map (fun i =>
          let x := bar_x + i * 13 in
          if i <? fan_speed state
          then create_rectangle x bar_y (x + 10) (bar_y + 14) true 1
          else create_rectangle x bar_y (x + 10) (bar_y + 14) false 1)
       (Py.range 8)).

Definition draw_bottom : list canvas_item :=
  [ create_line [px 15; px 115; px 565; px 115] 1 false;
    create_text 250 130 "Semi-Auto" (mkFont "Arial" 11 false) anchor_center;
    create_text 520 130 "A/C Off" (mkFont "Arial" 11 false) anchor_center ].

(** [draw]: the canvas is cleared ([delete("all")]) and these items are
    created, so the result is the whole content of the canvas. *)
Definition draw (state : HVACState) : list canvas_item :=
  draw_clock state ++
  draw_icons ++
  draw_outside_temp ++
  draw_set_temp state ++
  draw_fan state ++
  draw_bottom.

End HVACDisplay.

(* ================================================================== *)
(** ** Click dispatch of the two control panels *)
(* ================================================================== *)

(** [_on_click] looks a callback up by name and calls it.  The handlers are
    written once, over any type [T] of results: [call key] stands for
    [self.callbacks.get(key, lambda: None)()] and [pass_] for falling through
    an [if] without [else].  The application instantiates [T] with its
    effects, and the properties below with the list of names called. *)

Module HVACButtons.
Section OnClick.
Context {T : Type} (call : string -> T).

Definition _on_click (x : Z) : T :=
  if x <? 72 then call "off"
  else if x <? 144 then call "recirc"
  else if x <? 216 then call "ac"
  else if x <? 288 then call "auto"
  else if x <? 360 then call "hazard"
  else if x <? 432 then call "front_def"
  else if x <? 504 then call "air_dir"
  else call "rear_def".
End OnClick.

(** The divider positions of [draw]. *)
Definition dividers : list Z := [72; 144; 216; 288; 360; 432; 504].
End HVACButtons.

Module HVACSliders.
Section OnClick.
Context {T : Type} (call : string -> T) (pass_ : T).

Definition _on_click (x : Z) : T :=
  if x <? 193 then
    (* Left section *)
    if x <? 50 then call "pass_temp_down"
    else if x >? 140 then call "pass_temp_up"
    else pass_
  else if x <? 387 then
    (* Center section *)
    if x <? 240 then call "fan_down"
    else if x >? 340 then call "fan_up"
    else pass_
  else
    (* Right section *)
    if x <? 430 then call "drv_temp_down"
    else if x >? 530 then call "drv_temp_up"
    else pass_.
End OnClick.
End HVACSliders.

(** The names a click calls, in order. *)
Definition button_calls (x : Z) : list string :=
  HVACButtons._on_click (fun key => [key]) x.

Definition slider_calls (x : Z) : list string :=
  HVACSliders._on_click (fun key => [key]) [] x.

(* ================================================================== *)
(** ** Effects of the application *)
(* ================================================================== *)

(** A printed line is kept as the pieces of its f-string: literal text and
    the values substituted by [str()]. *)
Inductive fragment : Type :=
| lit (text : string)
| str_of_int (n : Z)
| str_of_float (x : float).

Definition line : Type := list fragment.

(** What a callback does besides changing [self.state]: it prints, it
    redraws the display (the event carries the new content of the canvas),
    and the clock reschedules itself with [self.after]. *)
Inductive event : Type :=
| Print (l : line)
| Redraw (canvas : list canvas_item)
| After (ms : Z).

(** Methods of the application: state passing over [self.state], with the
    events they emit. *)
Definition M (A : Type) : Type := HVACState -> A * HVACState * list event.

Definition ret {A : Type} (a : A) : M A := fun s => (a, s, []).

Definition bind {A B : Type} (m : M A) (k : A -> M B) : M B :=
  fun s =>
    let '(a, s1, out1) := m s in
    let '(b, s2, out2) := k a s1 in
    (b, s2, (out1 ++ out2)%list).

Declare Scope app_scope.
Delimit Scope app_scope with app.
Notation "x <- m ;; k" := (bind m (fun x => k))
  (at level 61, m at next level, right associativity) : app_scope.
Notation "m ;; k" := (bind m (fun _ => k))
  (at level 61, right associativity) : app_scope.

Definition get : M HVACState := fun s => (s, s, []).
Definition modify (f : HVACState -> HVACState) : M unit := fun s => (tt, f s, []).
Definition emit (e : event) : M unit := fun s => (tt, s, [e]).
Definition print (l : line) : M unit := emit (Print l).

Definition state_after {A : Type} (m : M A) (s : HVACState) : HVACState :=
  snd (fst (m s)).
Definition events_of {A : Type} (m : M A) (s : HVACState) : list event :=
  snd (m s).

Definition is_print (e : event) : bool :=
  match e with Print _ => true | _ => false end.
Definition is_redraw (e : event) : bool :=
  match e with Redraw _ => true | _ => false end.

Definition log_lines (out : list event) : list event := filter is_print out.
Definition redraws (out : list event) : list event := filter is_redraw out.

(* ================================================================== *)
(** ** Main application *)
(* ================================================================== *)

Module FordFGHVACApp.

Local Open Scope app_scope.

Definition on_off (b : bool) : fragment := lit (if b then "On" else "Off").

(** The display panel holds the same state object, so [draw] reads the
    state as the callback left it. *)
Definition _refresh : M unit :=
  s <- get ;; emit (Redraw (HVACDisplay.draw s)).

Definition _on_off : M unit := print [lit "[CAN TX] OFF pressed"].

Definition _on_recirc : M unit := print [lit "[CAN TX] Recirc pressed"].

Definition _on_ac : M unit :=
  modify (fun s => with_ac_on (negb (ac_on s)) s) ;;
  s <- get ;;
  print [lit "[CAN TX] A/C: "; on_off (ac_on s)] ;;
  _refresh.

Definition _on_auto : M unit :=
  modify (fun s => with_auto_mode (negb (auto_mode s)) s) ;;
  s <- get ;;
  print [lit "[CAN TX] Auto: "; on_off (auto_mode s)] ;;
  _refresh.

Definition _on_front_def : M unit :=
  modify (fun s => with_front_defrost (negb (front_defrost s)) s) ;;
  s <- get ;;
  print [lit "[CAN TX] Front Defrost: "; on_off (front_defrost s)] ;;
  _refresh.

Definition _on_rear_def : M unit :=
  modify (fun s => with_rear_defrost (negb (rear_defrost s)) s) ;;
  s <- get ;;
  print [lit "[CAN TX] Rear Defrost: "; on_off (rear_defrost s)] ;;
  _refresh.

Definition _on_fan_up : M unit :=
  s <- get ;;
  if fan_speed s <? 8 then
    modify (fun s => with_fan_speed (fan_speed s + 1) s) ;;
    s <- get ;;
    print [lit "[CAN TX] Fan: "; str_of_int (fan_speed s)] ;;
    _refresh
  else ret tt.

Definition _on_fan_down : M unit :=
  s <- get ;;
  if fan_speed s >? 0 then
    modify (fun s => with_fan_speed (fan_speed s - 1) s) ;;
    s <- get ;;
    print [lit "[CAN TX] Fan: "; str_of_int (fan_speed s)] ;;
    _refresh
  else ret tt.

Definition _on_temp_up : M unit :=
  s <- get ;;
  if (set_temp s <? 32)%float then
    modify (fun s => with_set_temp (set_temp s + 0.5)%float s) ;;
    s <- get ;;
    print [lit "[CAN TX] Temp: "; str_of_float (set_temp s); lit "°C"] ;;
    _refresh
  else ret tt.

Definition _on_temp_down : M unit :=
  s <- get ;;
  if (16 <? set_temp s)%float (* [set_temp > 16] *) then
    modify (fun s => with_set_temp (set_temp s - 0.5)%float s) ;;
    s <- get ;;
    print [lit "[CAN TX] Temp: "; str_of_float (set_temp s); lit "°C"] ;;
    _refresh
  else ret tt.

(** [now_hour] and [now_minute] are [datetime.now().hour] and [.minute]. *)
Definition _update_clock (now_hour now_minute : Z) : M unit :=
  modify (with_hours now_hour) ;;
  modify (with_minutes now_minute) ;;
  _refresh ;;
  emit (After 1000).

(** [self.callbacks] *)
Definition callbacks : list (string * M unit) :=
  [ ("off", _on_off);
    ("recirc", _on_recirc);
    ("ac", _on_ac);
    ("auto", _on_auto);
    ("hazard", print [lit "[CAN] Hazard"]);
    ("front_def", _on_front_def);
    ("air_dir", print [lit "[CAN] Air direction"]);
    ("rear_def", _on_rear_def);
    ("fan_up", _on_fan_up);
    ("fan_down", _on_fan_down);
    ("pass_temp_up", _on_temp_up);
    ("pass_temp_down", _on_temp_down);
    ("drv_temp_up", _on_temp_up);
    ("drv_temp_down", _on_temp_down) ].

(** [self.callbacks.get(key, lambda: None)()] *)
Definition call (key : string) : M unit :=
  Py.dict_get callbacks key (ret tt).

(** A click on the button panel and on the slider panel, as wired by
    [__init__]: both panels receive [self.callbacks]. *)
Definition click_button (x : Z) : M unit := HVACButtons._on_click call x.
Definition click_slider (x : Z) : M unit := HVACSliders._on_click call (ret tt) x.

End FordFGHVACApp.

(** What the outside world does to a running application: clicks on the two
    panels, ticks of the one-second timer, and, for the commands taken one by
    one, a direct call of a named callback. *)
Inductive action : Type :=
| Command (key : string)
| ButtonClick (x : Z)
| SliderClick (x : Z)
| ClockTick (now_hour now_minute : Z).

Definition perform (a : action) : M unit :=
  match a with
  | Command key => FordFGHVACApp.call key
  | ButtonClick x => FordFGHVACApp.click_button x
  | SliderClick x => FordFGHVACApp.click_slider x
  | ClockTick h m => FordFGHVACApp._update_clock h m
  end.

Fixpoint perform_all (acts : list action) : M unit :=
  match acts with
  | [] => ret tt
  | a :: rest => bind (perform a) (fun _ => perform_all rest)
  end.

(** A state is reachable when some sequence of actions leads to it from the
    defaults. *)
Definition reachable (s : HVACState) : Prop :=
  exists acts, state_after (perform_all acts) HVACState_default = s.

(** [n] successive calls of a command; the last call is the [n]-th. *)
Fixpoint times (n : nat) (m : M unit) : M unit :=
  match n with
  | O => ret tt
  | S k => bind (times k m) (fun _ => m)
  end.

(* ================================================================== *)
(** ** The properties of the specification, as definitions *)
(* ================================================================== *)

(** [k] half degrees, computed as the program computes temperatures. *)
Definition half_degrees (k : Z) : float :=
  (PrimFloat.of_uint63 (Uint63.of_Z k) * 0.5)%float.

(** A temperature is a multiple of 0.5 within [16.0, 32.0]: its exact value
    is a rational [q] with [16 <= q <= 32] and [q = k / 2] for an integer
    [k]. *)
Definition multiple_of_half_in_range (t : float) : Prop :=
  exists q : Q,
    Py.value t = Some q /\ (16 <= q <= 32)%Q /\ exists k : Z, (q == k # 2)%Q.

Definition fan_in_range (n : Z) : Prop := 0 <= n <= 8.

Definition invariant (s : HVACState) : Prop :=
  multiple_of_half_in_range (set_temp s) /\ fan_in_range (fan_speed s).

(** *** Button panel: eight bands between the dividers *)

Definition button_names : list string :=
  ["off"; "recirc"; "ac"; "auto"; "hazard"; "front_def"; "air_dir"; "rear_def"].

(** The band of [x]: the number of dividers at or to the left of [x]. *)
Definition band (x : Z) : nat :=
  List.length (filter (fun d => d <=? x) HVACButtons.dividers).

Definition band_name (x : Z) : string := nth (band x) button_names "".

(** *** Slider panel: three thirds, each with three zones *)

Inductive zone : Type := decrement | dead | increment.

Definition third (x : Z) : nat :=
  if x <? 193 then 0 else if x <? 387 then 1 else 2.

(** The inner breakpoints of each third: the dead zone is [lo <= x <= hi]. *)
Definition inner_breakpoints (n : nat) : Z * Z :=
  nth n [(50, 140); (240, 340)] (430, 530).

Definition zone_of (x : Z) : zone :=
  let '(lo, hi) := inner_breakpoints (third x) in
  if x <? lo then decrement else if x <=? hi then dead else increment.

Definition slider_names : list (string * string) :=
  [("pass_temp_down", "pass_temp_up"); ("fan_down", "fan_up")].

Definition zone_calls (x : Z) : list string :=
  let '(down, up) := nth (third x) slider_names ("drv_temp_down", "drv_temp_up") in
  match zone_of x with
  | decrement => [down]
  | dead => []
  | increment => [up]
  end.

(** *** Seven-segment patterns *)

(** A segment flag is 0 or 1. *)
Definition is_flag (n : Z) : Prop := n = 0 \/ n = 1.

Definition flags (p : HVACDisplay.segs) : Prop :=
  let '(a, b, c, d, e, f, g) := p in
  is_flag a /\ is_flag b /\ is_flag c /\ is_flag d /\ is_flag e /\ is_flag f /\ is_flag g.

(** *** Display: the rows of glyphs *)

(** A row of large glyphs starting at pen position [x]: a digit advances the
    pen by 32, the decimal point is a dot and advances it by 10. *)
Definition advance (char : string) : Z := if String.eqb char "." then 10 else 32.

Definition glyph (x : Z) (char : string) : list canvas_item :=
  if String.eqb char "." then
    [create_oval x (HVACDisplay.temp_y + 42) (x + 6) (HVACDisplay.temp_y + 48) true 1]
  else HVACDisplay._draw_7seg x HVACDisplay.temp_y char "large".

Fixpoint glyph_row (x : Z) (chars : list string) : list canvas_item :=
  match chars with
  | [] => []
  | c :: rest => (glyph x c ++ glyph_row (x + advance c) rest)%list
  end.

Definition row_end (x : Z) (chars : list string) : Z :=
  fold_left (fun pen c => pen + advance c) chars x.

(** The outside temperature as the specification has it drawn: the
    characters of [outside_temp] as a signed two-digit number, each through
    the small seven-segment renderer at the three glyph positions. *)
Definition signed_two_digit (n : Z) : string :=
  (if n <? 0 then "-" else " ") ++ Py.format_02d (Z.abs n).

Definition outside_glyph_x : list Z := [365; 378; 394].

Definition spec_draw_outside_temp (state : HVACState) : list canvas_item :=
  ([ create_text 310 15 "Outside" (mkFont "Arial" 10 false) anchor_w ] ++
   flat_map (fun '(x, c) => HVACDisplay._draw_small_7seg x 8 c)
            (combine outside_glyph_x (Py.chars (signed_two_digit (outside_temp state)))) ++
   [ create_text 415 15 "°C" (mkFont "Arial" 10 false) anchor_w ])%list.

(** The display of the specification: the outside temperature read from
    the state, the rest as drawn by the program. *)
Definition display_as_specified (state : HVACState) : list canvas_item :=
  (HVACDisplay.draw_clock state ++ HVACDisplay.draw_icons ++
   spec_draw_outside_temp state ++
   HVACDisplay.draw_set_temp state ++ HVACDisplay.draw_fan state ++
   HVACDisplay.draw_bottom)%list.

(** The texts of the bottom row of the display (below the divider line). *)
Definition bottom_labels (canvas : list canvas_item) : list string :=
  flat_map (fun item =>
              match item with
              | create_text _ y text _ _ => if y =? 130 then [text] else []
              | _ => []
              end) canvas.

(** The A/C scenario of the specification at a state [s]: the toggle flips
    the flag, prints one line and redraws with a bottom label that tells the
    new A/C state, hence one that differs from the label shown before; a
    second toggle restores the state. *)
Definition ac_scenario_as_specified (s : HVACState) : Prop :=
  let '(_, s1, out1) := FordFGHVACApp._on_ac s in
  let '(_, s2, _) := FordFGHVACApp._on_ac s1 in
  ac_on s1 = negb (ac_on s) /\
  List.length (log_lines out1) = 1%nat /\
  (exists canvas, redraws out1 = [Redraw canvas] /\
                  bottom_labels canvas <> bottom_labels (HVACDisplay.draw s)) /\
  s2 = s.

(** The temp-up scenario of the specification: seventeen calls end at 32.0
    and the seventeenth call starts from 32.0 and does nothing. *)
Definition temp_up_17_as_specified (s : HVACState) : Prop :=
  let before := state_after (times 16 FordFGHVACApp._on_temp_up) s in
  set_temp (state_after (times 17 FordFGHVACApp._on_temp_up) s) = 32%float /\
  set_temp before = 32%float /\
  FordFGHVACApp._on_temp_up before = (tt, before, []).

(* ================================================================== *)
(** ** The button and slider panels as drawn *)
(* ================================================================== *)

(** The button panel creates two kinds of items the display has not: an arc,
    and a polygon with [fill=FG_COLOR] and no outline. *)
Inductive panel_item : Type :=
| item (i : canvas_item)
| create_arc (x1 y1 x2 y2 start extent width : Z)
| create_polygon_fill (coords : list Z).

Module HVACButtonsDraw.

Local Open Scope list_scope.

(** Three LED indicators. *)
Definition _draw_3_leds (cx cy : Z) : list panel_item :=
  map (fun offset =>
         item (create_oval (cx + offset - 4) (cy - 4) (cx + offset + 4) (cy + 4) false 1))
      [-15; 0; 15].

(** Recirculation icon: car with curved arrow. *)
Definition _draw_recirc (cx cy : Z) : list panel_item :=
  [ item (create_polygon
            [cx - 12; cy + 6;  cx - 8; cy;  cx - 2; cy - 4;
             cx + 6; cy - 4;  cx + 10; cy;  cx + 12; cy + 6] false 1);
    create_arc (cx - 18) (cy - 12) (cx - 2) (cy + 4) 120 200 1;
    create_polygon_fill [cx - 18; cy - 2;  cx - 13; cy - 6;  cx - 13; cy + 2] ].

(** Hazard triangle. *)
Definition _draw_hazard (cx cy : Z) : list panel_item :=
  [ item (create_polygon [cx; cy - 14;  cx - 16; cy + 10;  cx + 16; cy + 10] false 2) ].

(** Front defrost button icon. *)
Definition _draw_front_def_btn (cx cy : Z) : list panel_item :=
  [ item (create_polygon
            [cx - 14; cy + 10;  cx - 8; cy - 10;  cx + 8; cy - 10;  cx + 14; cy + 10]
            false 1) ] ++
  map (fun offset =>
         item (create_line [px (cx + offset); px (cy + 6); px (cx + offset); px (cy - 6)]
                           1 false))
      [-5; 0; 5].

(** Air direction button. *)
Definition _draw_air_dir_btn (cx cy : Z) : list panel_item :=
  [ item (create_line [px (cx - 15); px (cy - 5); px (cx - 5); px (cy - 5)] 1 false);
    item (create_line [px (cx - 15); px cy; px (cx - 5); px cy] 1 false);
    item (create_line [px (cx - 15); px (cy + 5); px (cx - 5); px (cy + 5)] 1 false);
    item (create_oval (cx + 2) (cy - 10) (cx + 10) (cy - 2) false 1);
    item (create_line [px (cx + 6); px (cy - 2); px (cx + 6); px (cy + 10)] 1 false) ].

(** Rear defrost button. *)
Definition _draw_rear_def_btn (cx cy : Z) : list panel_item :=
  [ item (create_rectangle (cx - 12) (cy - 8) (cx + 12) (cy + 8) false 1) ] ++
  map (fun y_off =>
         item (create_line [px (cx - 9); px (cy + y_off); px (cx + 9); px (cy + y_off)]
                           1 false))
      [-4; 0; 4].

Definition label (x y : Z) (text : string) : panel_item :=
  item (create_text x y text (mkFont "Arial" 10 true) anchor_center).

(** What [draw] creates for each of the eight buttons, left to right. *)
Definition buttons : list (list panel_item) :=
  [ (* OFF *)
    label 36 15 "OFF" :: _draw_3_leds 36 32;
    (* Recirc icon *)
    _draw_recirc 108 15 ++ _draw_3_leds 108 32;
    (* A/C *)
    label 180 15 "A/C" :: _draw_3_leds 180 32;
    (* AUTO *)
    label 252 15 "AUTO" :: _draw_3_leds 252 32;
    (* Hazard triangle *)
    _draw_hazard 324 22;
    (* Front defrost *)
    _draw_front_def_btn 396 20;
    (* Air direction with LED *)
    _draw_air_dir_btn 468 20 ++ [item (create_oval 495 18 503 26 false 1)];
    (* Rear defrost *)
    _draw_rear_def_btn 540 20 ].

(** [draw]: the divider lines, then the buttons. *)
Definition draw : list panel_item :=
  map (fun x => item (create_line [px x; px 5; px x; px 40] 1 false))
      HVACButtons.dividers ++
  List.concat buttons.

End HVACButtonsDraw.

Module HVACSlidersDraw.

Local Open Scope list_scope.

(** Tiny seat icon. *)
Definition _draw_small_seat (cx cy : Z) : list canvas_item :=
  [ create_line [px (cx - 4); px (cy + 4); px (cx - 2); px (cy - 4)] 1 false;
    create_line [px (cx - 2); px (cy - 4); px (cx + 3); px (cy - 4)] 1 false;
    create_line [px (cx + 3); px (cy - 4); px (cx + 5); px (cy + 4)] 1 false;
    create_line [px (cx - 4); px (cy + 4); px (cx + 8); px (cy + 4)] 1 false ].

(** Tiny fan icon. *)
Definition _draw_small_fan (cx cy : Z) : list canvas_item :=
  map (fun angle =>
         create_line [px cx; px cy; px_cos cx 5 (angle + 30); px_sin cy 5 (angle + 30)]
                     1 false)
      (Py.range_step 0 90 4) ++
  [ create_oval (cx - 2) (cy - 2) (cx + 2) (cy + 2) true 1 ].

(** The tick marks of a track: twelve, the two in the middle taller. *)
Definition ticks (first pitch cy : Z) : list canvas_item :=
  map (fun i =>
         let tick_x := first + i * pitch in
         if (i =? 5) || (i =? 6)
         then create_line [px tick_x; px (cy - 8); px tick_x; px (cy + 8)] 1 false
         else create_line [px tick_x; px (cy - 5); px tick_x; px (cy + 5)] 1 false)
      (Py.range 12).

Definition led_left (cx cy : Z) : canvas_item :=
  create_oval (cx - 85) (cy - 4) (cx - 77) (cy + 4) false 1.

Definition led_right (cx cy : Z) : canvas_item :=
  create_oval (cx + 77) (cy - 4) (cx + 85) (cy + 4) false 1.

(** The parts of a temperature control, in the order [_draw_temp_control]
    creates them. *)
Definition temp_down_part (cx cy : Z) : list canvas_item :=
  [ led_left cx cy;
    create_polygon [cx - 70; cy;  cx - 60; cy - 6;  cx - 60; cy + 6] true 1 ].

Definition temp_ticks (cx cy : Z) : list canvas_item := ticks (cx - 50) 7 cy.

Definition temp_up_part (cx cy : Z) : list canvas_item :=
  [ create_polygon [cx + 70; cy;  cx + 60; cy - 6;  cx + 60; cy + 6] true 1;
    led_right cx cy ].

Definition _draw_temp_control (cx cy : Z) : list canvas_item :=
  temp_down_part cx cy ++ temp_ticks cx cy ++ _draw_small_seat cx (cy + 2) ++
  temp_up_part cx cy.

(** The parts of the fan control, in the order [_draw_fan_control] creates
    them. *)
Definition fan_down_part (cx cy : Z) : list canvas_item :=
  [ led_left cx cy;
    create_line [px (cx - 70); px cy; px (cx - 55); px cy] 2 false ].

Definition fan_ticks (cx cy : Z) : list canvas_item := ticks (cx - 45) 6 cy.

Definition fan_up_part (cx cy : Z) : list canvas_item :=
  [ create_line [px (cx + 55); px cy; px (cx + 70); px cy] 2 false;
    create_line [px (cx + 62); px (cy - 7); px (cx + 62); px (cy + 7)] 2 false;
    led_right cx cy ].

Definition _draw_fan_control (cx cy : Z) : list canvas_item :=
  fan_down_part cx cy ++ fan_ticks cx cy ++ _draw_small_fan (cx + 5) cy ++
  fan_up_part cx cy.

Definition draw : list canvas_item :=
  [ (* Inner border *)
    create_rectangle 4 4 576 36 false 1;
    (* Vertical dividers (3 sections) *)
    create_line [px 193; px 6; px 193; px 34] 1 false;
    create_line [px 387; px 6; px 387; px 34] 1 false ] ++
  (* LEFT SECTION (Passenger temp) *)
  _draw_temp_control 97 20 ++
  (* CENTER SECTION (Fan) *)
  _draw_fan_control 290 20 ++
  (* RIGHT SECTION (Driver temp) *)
  _draw_temp_control 483 20.

End HVACSlidersDraw.

(** *** Where an item lies, left to right *)

(** The interval a coordinate can take: a symbolic [c + r * cos] or
    [c + r * sin] lies within [r] of [c]. *)
Definition coord_span (c : coord) : Z * Z :=
  match c with
  | px n => (n, n)
  | px_cos c r _ | px_sin c r _ => (c - Z.abs r, c + Z.abs r)
  end.

(** Coordinates alternate x, y: the x ones. *)
Fixpoint x_coords {A : Type} (l : list A) : list A :=
  match l with
  | x :: rest =>
      x :: match rest with
           | _ :: rest' => x_coords rest'
           | [] => []
           end
  | [] => []
  end.

(** The spans of the x-coordinates of an item; a text has its anchor only,
    its width being the font's affair. *)
Definition x_spans (it : canvas_item) : list (Z * Z) :=
  match it with
  | create_line coords _ _ => map coord_span (x_coords coords)
  | create_text x _ _ _ _ => [(x, x)]
  | create_oval x1 _ x2 _ _ _ => [(x1, x1); (x2, x2)]
  | create_polygon coords _ _ => map (fun x => (x, x)) (x_coords coords)
  | create_rectangle x1 _ x2 _ _ _ => [(x1, x1); (x2, x2)]
  end.

Definition panel_x_spans (it : panel_item) : list (Z * Z) :=
  match it with
  | item i => x_spans i
  | create_arc x1 _ x2 _ _ _ _ => [(x1, x1); (x2, x2)]
  | create_polygon_fill coords => map (fun x => (x, x)) (x_coords coords)
  end.

(** [x] is within the horizontal extent given by the spans: between one x
    coordinate of the item and another. *)
Definition within (spans : list (Z * Z)) (x : Z) : Prop :=
  exists a b, In a spans /\ In b spans /\ fst a <= x <= snd b.

Definition covers (it : canvas_item) (x : Z) : Prop := within (x_spans it) x.
Definition panel_covers (it : panel_item) (x : Z) : Prop := within (panel_x_spans it) x.

(** All spans between [lo] and [hi]. *)
Definition spans_inside (lo hi : Z) (spans : list (Z * Z)) : bool :=
  forallb (fun s => (lo <=? fst s) && (snd s <=? hi)) spans.

(* ================================================================== *)
(** ** Start-up and the canvas of the display *)
(* ================================================================== *)

(** [FordFGHVACApp.__init__]: the state is created with its defaults, the
    display panel draws itself on construction, and the clock is started.
    The button and slider panels draw on canvases of their own
    ([HVACButtonsDraw.draw], [HVACSlidersDraw.draw]) and touch neither the
    state nor the display. *)
Definition __init__ (now_hour now_minute : Z) : M unit :=
  bind (modify (fun _ => HVACState_default)) (fun _ =>
  bind (get) (fun s =>
  bind (emit (Redraw (HVACDisplay.draw s))) (fun _ =>
  FordFGHVACApp._update_clock now_hour now_minute))).

(** The content of the display canvas after some events: that of the last
    redraw. *)
Definition shown (canvas : list canvas_item) (out : list event) : list canvas_item :=
  fold_left (fun c e => match e with Redraw c' => c' | _ => c end) out canvas.

(** A running application: start-up at some time of day, then actions. *)
Definition session (now_hour now_minute : Z) (acts : list action) : M unit :=
  bind (__init__ now_hour now_minute) (fun _ => perform_all acts).

(* ================================================================== *)
(** ** Reading the display *)
(* ================================================================== *)

Definition clamp (lo hi n : Z) : Z := Z.max lo (Z.min hi n).

Definition is_filled_rectangle (it : canvas_item) : bool :=
  match it with
  | create_rectangle _ _ _ _ true _ => true
  | _ => false
  end.

Definition is_hollow_rectangle (it : canvas_item) : bool :=
  match it with
  | create_rectangle _ _ _ _ false _ => true
  | _ => false
  end.

(** The filled polygons at or right of [temp_x]: the segments of the set
    temperature, as the numbers of their corners. *)
Definition temp_segments (canvas : list canvas_item) : list (list Z) :=
  flat_map (fun it =>
              match it with
              | create_polygon (x :: rest) true _ =>
                  if HVACDisplay.temp_x <=? x then [x :: rest] else []
              | _ => []
              end) canvas.

(** The clock text of the display. *)
Definition clock_text (canvas : list canvas_item) : list string :=
  flat_map (fun it =>
              match it with
              | create_text _ _ text fnt _ =>
                  if String.eqb (family fnt) "Consolas" then [text] else []
              | _ => []
              end) canvas.

(** The time of day is valid as [datetime] gives it. *)
Definition valid_clock (s : HVACState) : Prop :=
  0 <= hours s <= 23 /\ 0 <= minutes s <= 59.

(** The decimal digit character of [d]. *)
Definition digit_char (d : Z) : ascii := ascii_of_nat (48 + Z.to_nat d).

(** *** Single assignments *)

(** [s'] is [s] or [s] with one field assigned, and that field is not the
    clock or the outside temperature. *)
Definition one_setting_changed (s s' : HVACState) : Prop :=
  s' = s \/
  (exists v, s' = with_set_temp v s) \/
  (exists v, s' = with_fan_speed v s) \/
  (exists v, s' = with_ac_on v s) \/
  (exists v, s' = with_auto_mode v s) \/
  (exists v, s' = with_front_defrost v s) \/
  (exists v, s' = with_rear_defrost v s).

(** The four toggle commands. *)
Definition toggles : list string := ["ac"; "auto"; "front_def"; "rear_def"].

(** The six slider commands. *)
Definition slider_commands : list string :=
  ["pass_temp_down"; "pass_temp_up"; "fan_down"; "fan_up";
   "drv_temp_down"; "drv_temp_up"].

(** *** Kinds of items *)

(** What a row of glyphs is made of: filled polygons and the dot. *)
Definition is_glyph_item (it : canvas_item) : Prop :=
  match it with
  | create_polygon _ true _ => True
  | create_oval _ _ _ _ _ _ => True
  | _ => False
  end.

(** What the fan section is made of: the rays and the bars. *)
Definition is_fan_item (it : canvas_item) : Prop :=
  match it with
  | create_line _ _ _ => True
  | create_rectangle _ _ _ _ _ _ => True
  | _ => False
  end.

(** One bar of the fan level, filled or not. *)
Definition bar (filled : bool) (i : Z) : canvas_item :=
  create_rectangle (482 + i * 13) 88 (482 + i * 13 + 10) (88 + 14) filled 1.

(** The text of the clock for a time of day within [00:00, 99:99]. *)
Definition hh_mm (h m : Z) : string :=
  String (digit_char (h / 10)) (String (digit_char (h mod 10)) (String ":"%char
  (String (digit_char (m / 10)) (String (digit_char (m mod 10)) EmptyString)))).

(** *** Telling the 33 temperatures apart on the display *)

Fixpoint list_eqb {A : Type} (eqb : A -> A -> bool) (l1 l2 : list A) : bool :=
  match l1, l2 with
  | [], [] => true
  | a :: r1, b :: r2 => eqb a b && list_eqb eqb r1 r2
  | _, _ => false
  end.

(** The segments drawn for [k] half degrees. *)
Definition segments_of_half_degrees (k : Z) : list (list Z) :=
  temp_segments
    (HVACDisplay.draw_set_temp (with_set_temp (half_degrees k) HVACState_default)).

(** The 33 temperatures, in half degrees. *)
Definition half_degree_range : list Z := map (fun i => 32 + Z.of_nat i) (seq 0 33).

(** Two temperatures differ in their segments, or are the same. *)
Definition told_apart (i j : Z) : bool :=
  (i =? j) ||
  negb (list_eqb (list_eqb Z.eqb)
                 (segments_of_half_degrees i) (segments_of_half_degrees j)).

(** *** A way to any state *)




(** The width and height of a glyph of the given size. *)
Definition glyph_box (size : string) : Z * Z :=
  if String.eqb size "large" then (24, 44) else (12, 20).

(* ================================================================== *)
(** ** Temperatures: half degrees between 16.0 and 32.0 *)
(* ================================================================== *)

(** Case analysis over an interval of [n] integers starting at [lo]. *)
Lemma Z_between_cases (P : Z -> Prop) (lo : Z) (n : nat) :
  Forall (fun i => P (lo + Z.of_nat i)) (seq 0 n) ->
  forall k, lo <= k < lo + Z.of_nat n -> P k.
Proof.
  intros H k Hk. rewrite Forall_forall in H.
  replace k with (lo + Z.of_nat (Z.to_nat (k - lo))) by lia.
  apply H, in_seq. lia.
Qed.

Ltac each_case tac := repeat (constructor; [cbv beta; tac|]); constructor.

Lemma digits2_pos_bounds (m : positive) :
  2 ^ (Z.pos (digits2_pos m) - 1) <= Z.pos m < 2 ^ Z.pos (digits2_pos m).
Proof.
  induction m as [p [IH1 IH2] | p [IH1 IH2] |]; simpl digits2_pos;
    [rewrite Pos2Z.inj_succ; revert IH1 IH2;
     replace (Z.succ (Z.pos (digits2_pos p)) - 1)
       with (Z.succ (Z.pos (digits2_pos p) - 1)) by lia;
     rewrite !Z.pow_succ_r by lia;
     generalize (2 ^ (Z.pos (digits2_pos p) - 1)) (2 ^ Z.pos (digits2_pos p));
     lia .. | simpl; lia].
Qed.

(** The binary64 representation of the half degrees below 32.0. *)
Lemma half_degrees_repr k : 32 <= k < 64 ->
  Prim2SF (half_degrees k) = S754_finite false (Z.to_pos (k * 2 ^ 47)) (-48).
Proof.
  revert k. apply (Z_between_cases _ 32 32).
  each_case ltac:(vm_compute; reflexivity).
Qed.

Lemma half_degrees_in_range k : 32 <= k <= 64 ->
  multiple_of_half_in_range (half_degrees k).
Proof.
  intros Hk. assert (H : 32 <= k < 32 + Z.of_nat 33) by lia. clear Hk.
  revert k H. apply Z_between_cases.
  each_case ltac:(idtac; match goal with
                  | |- multiple_of_half_in_range (half_degrees ?k) =>
                      eexists; split; [vm_compute; reflexivity|];
                      split; [split; vm_compute; discriminate|];
                      exists k; vm_compute; reflexivity
                  end).
Qed.

(** Conversely, a float whose value is a multiple of 0.5 between 16 and 32
    is one of the 33 floats [half_degrees 32 .. half_degrees 64]. *)
Lemma multiple_of_half_in_range_inv t :
  multiple_of_half_in_range t -> exists k, 32 <= k <= 64 /\ t = half_degrees k.
Proof.
  intros (q & Hv & [Hlo Hhi] & k & Hk).
  unfold Py.value in Hv. pose proof (Prim2SF_valid t) as Hvalid.
  destruct (Prim2SF t) as [sz | si | | s m e] eqn:E; try discriminate.
  { injection Hv as <-. exfalso. revert Hlo. unfold Qle. simpl. lia. }
  injection Hv as <-.
  unfold valid_binary, bounded, canonical_mantissa, fexp, emin in Hvalid.
  apply andb_prop in Hvalid as [Hcanon Hemax].
  apply Z.eqb_eq in Hcanon. apply Z.leb_le in Hemax.
  change prec with 53 in *. change emax with 1024 in *.
  pose proof (digits2_pos_bounds m) as Hm.
  revert Hlo Hhi Hk. unfold Py.magnitude, Qle, Qeq.
  destruct (Z.leb_spec 0 e) as [He | He].
  - (* an integer with a mantissa of 53 bits is far above 32 *)
    intros Hlo Hhi _. exfalso.
    assert (Hd : Z.pos (digits2_pos m) = 53) by lia.
    rewrite Hd in Hm. change (2 ^ (53 - 1)) with 4503599627370496 in Hm.
    assert (1 <= 2 ^ e) by (apply (Z.pow_le_mono_r 2 0 e); lia).
    destruct s; cbn [Qnum Qden inject_Z Qopp] in Hlo, Hhi; nia.
  - assert (Hp : 0 < 2 ^ (- e)) by (apply Z.pow_pos_nonneg; lia).
    destruct s; cbn [Qnum Qden Qopp]; rewrite ?Z2Pos.id by exact Hp;
      intros Hlo Hhi Hk; [exfalso; lia|].
    assert (Hd : Z.pos (digits2_pos m) = 53).
    { destruct (Z.max_spec (Z.pos (digits2_pos m) + e - 53) (3 - 1024 - 53))
        as [[_ Hmax]|[_ Hmax]]; [|lia].
      (* a subnormal is far below 16 *)
      exfalso. assert (e = -1074) by lia. subst e.
      assert (Z.pos (digits2_pos m) <= 53) by lia.
      assert (2 ^ Z.pos (digits2_pos m) <= 2 ^ 53) by (apply Z.pow_le_mono_r; lia).
      assert (2 ^ 53 <= 2 ^ (- -1074)) by (apply Z.pow_le_mono_r; lia).
      lia. }
    rewrite Hd in Hm. change (2 ^ (53 - 1)) with 4503599627370496 in Hm.
    change (2 ^ 53) with 9007199254740992 in Hm.
    assert (He' : e = -48 \/ e = -47).
    { destruct (Z.le_gt_cases e (-49)) as [Hs | Hs].
      - exfalso. assert (2 ^ 49 <= 2 ^ (- e)) by (apply Z.pow_le_mono_r; lia).
        change (2 ^ 49) with 562949953421312 in *. lia.
      - destruct (Z.le_gt_cases (-46) e) as [Hb | Hb]; [|lia].
        exfalso. assert (2 ^ (- e) <= 2 ^ 46) by (apply Z.pow_le_mono_r; lia).
        change (2 ^ 46) with 70368744177664 in *. lia. }
    destruct He' as [-> | ->].
    + change (2 ^ (- -48)) with 281474976710656 in *.
      exists k. assert (Hk' : 32 <= k < 64) by lia. split; [lia|].
      apply Prim2SF_inj. rewrite E, (half_degrees_repr k Hk'). f_equal.
      change (2 ^ 47) with 140737488355328. lia.
    + change (2 ^ (- -47)) with 140737488355328 in *.
      exists 64. split; [lia|]. apply Prim2SF_inj. rewrite E.
      assert (m = 4503599627370496%positive) as -> by lia. reflexivity.
Qed.

(** One step up and one step down, on the floats. *)
Lemma half_degrees_up k : 32 <= k < 64 ->
  (half_degrees k <? 32)%float = true /\
  (half_degrees k + 0.5)%float = half_degrees (k + 1).
Proof.
  revert k. apply (Z_between_cases _ 32 32).
  each_case ltac:(vm_compute; split; reflexivity).
Qed.

Lemma half_degrees_down k : 32 < k <= 64 ->
  (16 <? half_degrees k)%float = true /\
  (half_degrees k - 0.5)%float = half_degrees (k - 1).
Proof.
  intros Hk. assert (H : 33 <= k < 33 + Z.of_nat 32) by lia. clear Hk.
  revert k H. apply Z_between_cases.
  each_case ltac:(vm_compute; split; reflexivity).
Qed.

Lemma half_degrees_top : (half_degrees 64 <? 32)%float = false.
Proof. reflexivity. Qed.

Lemma half_degrees_bottom : (16 <? half_degrees 32)%float = false.
Proof. reflexivity. Qed.

(* ================================================================== *)
(** ** Running the callbacks *)
(* ================================================================== *)

Lemma state_after_bind {A B : Type} (m : M A) (k : A -> M B) (s : HVACState) :
  state_after (bind m k) s = state_after (k (fst (fst (m s)))) (state_after m s).
Proof.
  unfold state_after, bind. destruct (m s) as [[a s1] out1]. simpl.
  destruct (k a s1) as [[b s2] out2]. reflexivity.
Qed.

Lemma with_set_temp_same (s : HVACState) : with_set_temp (set_temp s) s = s.
Proof. destruct s; reflexivity. Qed.

Lemma run_toggle_ac (s : HVACState) :
  FordFGHVACApp._on_ac s =
  let s' := with_ac_on (negb (ac_on s)) s in
  (tt, s', [Print [lit "[CAN TX] A/C: "; FordFGHVACApp.on_off (ac_on s')];
            Redraw (HVACDisplay.draw s')]).
Proof. reflexivity. Qed.

Lemma run_fan_up (s : HVACState) :
  FordFGHVACApp._on_fan_up s =
  if fan_speed s <? 8 then
    let s' := with_fan_speed (fan_speed s + 1) s in
    (tt, s', [Print [lit "[CAN TX] Fan: "; str_of_int (fan_speed s')];
              Redraw (HVACDisplay.draw s')])
  else (tt, s, []).
Proof.
  unfold FordFGHVACApp._on_fan_up, bind, get.
  destruct (fan_speed s <? 8); reflexivity.
Qed.

Lemma run_fan_down (s : HVACState) :
  FordFGHVACApp._on_fan_down s =
  if fan_speed s >? 0 then
    let s' := with_fan_speed (fan_speed s - 1) s in
    (tt, s', [Print [lit "[CAN TX] Fan: "; str_of_int (fan_speed s')];
              Redraw (HVACDisplay.draw s')])
  else (tt, s, []).
Proof.
  unfold FordFGHVACApp._on_fan_down, bind, get.
  destruct (fan_speed s >? 0); reflexivity.
Qed.

Lemma run_temp_up (s : HVACState) :
  FordFGHVACApp._on_temp_up s =
  if (set_temp s <? 32)%float then
    let s' := with_set_temp (set_temp s + 0.5)%float s in
    (tt, s', [Print [lit "[CAN TX] Temp: "; str_of_float (set_temp s'); lit "°C"];
              Redraw (HVACDisplay.draw s')])
  else (tt, s, []).
Proof.
  unfold FordFGHVACApp._on_temp_up, bind, get.
  destruct (set_temp s <? 32)%float; reflexivity.
Qed.

Lemma run_temp_down (s : HVACState) :
  FordFGHVACApp._on_temp_down s =
  if (16 <? set_temp s)%float then
    let s' := with_set_temp (set_temp s - 0.5)%float s in
    (tt, s', [Print [lit "[CAN TX] Temp: "; str_of_float (set_temp s'); lit "°C"];
              Redraw (HVACDisplay.draw s')])
  else (tt, s, []).
Proof.
  unfold FordFGHVACApp._on_temp_down, bind, get.
  destruct (16 <? set_temp s)%float; reflexivity.
Qed.

(** Whatever name is called, one of the bound callbacks runs, or the
    default [lambda: None]. *)
Lemma call_cases (P : M unit -> Prop) (key : string) :
  P FordFGHVACApp._on_off -> P FordFGHVACApp._on_recirc ->
  P FordFGHVACApp._on_ac -> P FordFGHVACApp._on_auto ->
  P (print [lit "[CAN] Hazard"]) -> P FordFGHVACApp._on_front_def ->
  P (print [lit "[CAN] Air direction"]) -> P FordFGHVACApp._on_rear_def ->
  P FordFGHVACApp._on_fan_up -> P FordFGHVACApp._on_fan_down ->
  P FordFGHVACApp._on_temp_up -> P FordFGHVACApp._on_temp_down ->
  P (ret tt) ->
  P (FordFGHVACApp.call key).
Proof.
  intros. unfold FordFGHVACApp.call, FordFGHVACApp.callbacks.
  cbn [Py.dict_get].
  repeat match goal with
         | |- context [String.eqb ?k key] => destruct (String.eqb k key)
         end; assumption.
Qed.

(** Comparisons of integers that the context decides. *)
Ltac decide_cmp :=
  repeat match goal with
         | |- context [?a >? ?b] => rewrite (Z.gtb_ltb a b)
         | |- context [?a <? ?b] =>
             first [ rewrite (proj2 (Z.ltb_lt a b)) by lia
                   | rewrite (proj2 (Z.ltb_ge a b)) by lia ]
         | |- context [?a <=? ?b] =>
             first [ rewrite (proj2 (Z.leb_le a b)) by lia
                   | rewrite (proj2 (Z.leb_gt a b)) by lia ]
         end.

Lemma band_cases (x : Z) :
  x < 72 \/ 72 <= x < 144 \/ 144 <= x < 216 \/ 216 <= x < 288 \/
  288 <= x < 360 \/ 360 <= x < 432 \/ 432 <= x < 504 \/ 504 <= x.
Proof. lia. Qed.

Lemma zone_cases (x : Z) :
  x < 50 \/ 50 <= x <= 140 \/ 140 < x < 193 \/
  193 <= x < 240 \/ 240 <= x <= 340 \/ 340 < x < 387 \/
  387 <= x < 430 \/ 430 <= x <= 530 \/ 530 < x.
Proof. lia. Qed.

(** Each click handler is one call, or none. *)
Lemma button_click_is_call {T : Type} (call : string -> T) (x : Z) :
  HVACButtons._on_click call x = call (band_name x).
Proof.
  unfold HVACButtons._on_click, band_name, band, HVACButtons.dividers.
  cbn [filter].
  destruct (band_cases x) as [H|[H|[H|[H|[H|[H|[H|H]]]]]]];
    decide_cmp; reflexivity.
Qed.

Lemma slider_click_is_calls {T : Type} (call : string -> T) (pass_ : T) (x : Z) :
  HVACSliders._on_click call pass_ x =
  match zone_calls x with
  | [] => pass_
  | key :: _ => call key
  end.
Proof.
  unfold HVACSliders._on_click, zone_calls, zone_of, third, inner_breakpoints.
  destruct (zone_cases x) as [H|[H|[H|[H|[H|[H|[H|[H|H]]]]]]]];
    decide_cmp; cbn [nth]; decide_cmp; reflexivity.
Qed.

(* ================================================================== *)
(** ** State invariants *)
(* ================================================================== *)

Lemma invariant_default : invariant HVACState_default.
Proof.
  split; [apply (half_degrees_in_range 47); lia | unfold fan_in_range; simpl; lia].
Qed.

Lemma temp_up_in_range (s : HVACState) :
  multiple_of_half_in_range (set_temp s) ->
  multiple_of_half_in_range (set_temp (state_after FordFGHVACApp._on_temp_up s)) /\
  fan_speed (state_after FordFGHVACApp._on_temp_up s) = fan_speed s.
Proof.
  intros Ht. pose proof Ht as Ht'.
  apply multiple_of_half_in_range_inv in Ht' as (k & Hk & E).
  unfold state_after. rewrite run_temp_up, E.
  destruct (Z.eq_dec k 64) as [-> | Hne].
  - rewrite half_degrees_top. simpl. auto.
  - destruct (half_degrees_up k ltac:(lia)) as [-> ->]. simpl.
    split; [apply half_degrees_in_range; lia | reflexivity].
Qed.

Lemma temp_down_in_range (s : HVACState) :
  multiple_of_half_in_range (set_temp s) ->
  multiple_of_half_in_range (set_temp (state_after FordFGHVACApp._on_temp_down s)) /\
  fan_speed (state_after FordFGHVACApp._on_temp_down s) = fan_speed s.
Proof.
  intros Ht. pose proof Ht as Ht'.
  apply multiple_of_half_in_range_inv in Ht' as (k & Hk & E).
  unfold state_after. rewrite run_temp_down, E.
  destruct (Z.eq_dec k 32) as [-> | Hne].
  - rewrite half_degrees_bottom. simpl. auto.
  - destruct (half_degrees_down k ltac:(lia)) as [-> ->]. simpl.
    split; [apply half_degrees_in_range; lia | reflexivity].
Qed.

Lemma fan_up_in_range (s : HVACState) :
  fan_in_range (fan_speed s) ->
  fan_in_range (fan_speed (state_after FordFGHVACApp._on_fan_up s)) /\
  set_temp (state_after FordFGHVACApp._on_fan_up s) = set_temp s.
Proof.
  unfold fan_in_range, state_after. rewrite run_fan_up.
  destruct (Z.ltb_spec (fan_speed s) 8); simpl; split; auto; lia.
Qed.

Lemma fan_down_in_range (s : HVACState) :
  fan_in_range (fan_speed s) ->
  fan_in_range (fan_speed (state_after FordFGHVACApp._on_fan_down s)) /\
  set_temp (state_after FordFGHVACApp._on_fan_down s) = set_temp s.
Proof.
  unfold fan_in_range, state_after. rewrite run_fan_down, Z.gtb_ltb.
  destruct (Z.ltb_spec 0 (fan_speed s)); simpl; split; auto; lia.
Qed.

Lemma call_invariant (key : string) (s : HVACState) :
  invariant s -> invariant (state_after (FordFGHVACApp.call key) s).
Proof.
  intros [Ht Hf]. pattern (FordFGHVACApp.call key). apply call_cases;
    try (split; [exact Ht | exact Hf]).
  - destruct (fan_up_in_range s Hf) as [Hf' Et]. split; [rewrite Et|]; assumption.
  - destruct (fan_down_in_range s Hf) as [Hf' Et]. split; [rewrite Et|]; assumption.
  - destruct (temp_up_in_range s Ht) as [Ht' Ef]. split; [|rewrite Ef]; assumption.
  - destruct (temp_down_in_range s Ht) as [Ht' Ef]. split; [|rewrite Ef]; assumption.
Qed.

Lemma perform_invariant (a : action) (s : HVACState) :
  invariant s -> invariant (state_after (perform a) s).
Proof.
  intros Hs. destruct a as [key | x | x | h m]; cbn [perform].
  - now apply call_invariant.
  - unfold FordFGHVACApp.click_button. rewrite button_click_is_call.
    now apply call_invariant.
  - unfold FordFGHVACApp.click_slider. rewrite slider_click_is_calls.
    destruct (zone_calls x); [exact Hs | now apply call_invariant].
  - exact Hs.
Qed.

Lemma perform_all_invariant (acts : list action) (s : HVACState) :
  invariant s -> invariant (state_after (perform_all acts) s).
Proof.
  revert s. induction acts as [| a rest IH]; intros s Hs; cbn [perform_all].
  - exact Hs.
  - rewrite state_after_bind. apply IH, perform_invariant, Hs.
Qed.

(** C1. In every state reachable from the defaults (23.5 degrees, fan 5) by
    any sequence of commands, clicks and clock ticks, [set_temp] is a
    multiple of 0.5 within [16.0, 32.0] and [fan_speed] is an integer within
    [0, 8]; and every single command, click or tick preserves both
    invariants from any state that satisfies them. *)
Theorem state_invariants :
  (forall s, reachable s -> invariant s) /\
  (forall a s, invariant s -> invariant (state_after (perform a) s)).
Proof.
  split.
  - intros s [acts <-]. apply perform_all_invariant, invariant_default.
  - exact perform_invariant.
Qed.

Lemma state_invariants_witness :
  let s := state_after (perform_all [SliderClick 150; ButtonClick 180; ClockTick 14 5])
                       HVACState_default in
  reachable s /\ invariant s /\
  invariant (state_after (perform (Command "fan_up")) HVACState_default).
Proof.
  cbv zeta. split; [eexists; reflexivity|]. split.
  - apply (proj1 state_invariants). eexists. reflexivity.
  - apply (proj2 state_invariants). split.
    + eexists. split; [vm_compute; reflexivity|].
      split; [split; vm_compute; discriminate | exists 47; vm_compute; reflexivity].
    + unfold fan_in_range. simpl. lia.
Defined.

(* ================================================================== *)
(** ** Fan speed *)
(* ================================================================== *)

(** C2. With [fan_speed] in its domain [0, 8]: fan-up at 8 and fan-down at
    0 leave the state unchanged and emit nothing (no log line, no redraw);
    otherwise the call moves [fan_speed] by exactly 1, prints exactly one
    line and redraws the display once, and the result is again in [0, 8]. *)
Theorem fan_adjust (s : HVACState) :
  fan_in_range (fan_speed s) ->
  (fan_speed s = 8 -> FordFGHVACApp._on_fan_up s = (tt, s, [])) /\
  (fan_speed s = 0 -> FordFGHVACApp._on_fan_down s = (tt, s, [])) /\
  (fan_speed s <> 8 ->
   exists s',
     FordFGHVACApp._on_fan_up s =
       (tt, s', [Print [lit "[CAN TX] Fan: "; str_of_int (fan_speed s + 1)];
                 Redraw (HVACDisplay.draw s')]) /\
     s' = with_fan_speed (fan_speed s + 1) s /\
     fan_speed s' = fan_speed s + 1 /\ fan_in_range (fan_speed s')) /\
  (fan_speed s <> 0 ->
   exists s',
     FordFGHVACApp._on_fan_down s =
       (tt, s', [Print [lit "[CAN TX] Fan: "; str_of_int (fan_speed s - 1)];
                 Redraw (HVACDisplay.draw s')]) /\
     s' = with_fan_speed (fan_speed s - 1) s /\
     fan_speed s' = fan_speed s - 1 /\ fan_in_range (fan_speed s')).
Proof.
  unfold fan_in_range. intros Hf.
  rewrite run_fan_up, run_fan_down, Z.gtb_ltb.
  repeat split.
  - intros E. rewrite (proj2 (Z.ltb_ge _ _)) by lia. reflexivity.
  - intros E. rewrite (proj2 (Z.ltb_ge _ _)) by lia. reflexivity.
  - intros E. rewrite (proj2 (Z.ltb_lt _ _)) by lia.
    eexists. split; [reflexivity|]. simpl. repeat split; lia.
  - intros E. rewrite (proj2 (Z.ltb_lt _ _)) by lia.
    eexists. split; [reflexivity|]. simpl. repeat split; lia.
Qed.

Lemma fan_adjust_witness :
  fan_in_range (fan_speed HVACState_default) /\
  fan_speed HVACState_default <> 8 /\
  exists s',
    FordFGHVACApp._on_fan_up HVACState_default =
      (tt, s', [Print [lit "[CAN TX] Fan: "; str_of_int 6];
                Redraw (HVACDisplay.draw s')]) /\
    fan_speed s' = 6.
Proof.
  assert (Hf : fan_in_range (fan_speed HVACState_default))
    by (unfold fan_in_range; simpl; lia).
  assert (Hne : fan_speed HVACState_default <> 8) by (simpl; lia).
  split; [exact Hf|]. split; [exact Hne|].
  destruct (proj1 (proj2 (proj2 (fan_adjust HVACState_default Hf))) Hne)
    as (s' & Hrun & _ & Hs' & _).
  exists s'. split; [exact Hrun | exact Hs'].
Defined.

(* ================================================================== *)
(** ** Temperature: seventeen steps up from 23.5 *)
(* ================================================================== *)

Lemma state_after_times_S (n : nat) (m : M unit) (s : HVACState) :
  state_after (times (S n) m) s = state_after m (state_after (times n m) s).
Proof. cbn [times]. apply state_after_bind. Qed.

(** [n] calls of temp-up from [k] half degrees, while below the bound. *)
Lemma times_temp_up (n : nat) (k : Z) (s : HVACState) :
  set_temp s = half_degrees k -> 32 <= k -> k + Z.of_nat n <= 64 ->
  state_after (times n FordFGHVACApp._on_temp_up) s =
  with_set_temp (half_degrees (k + Z.of_nat n)) s.
Proof.
  intros E Hlo. induction n as [| n IH]; intros Hhi.
  - rewrite Z.add_0_r, <- E. symmetry. apply with_set_temp_same.
  - rewrite state_after_times_S, IH by lia.
    unfold state_after. rewrite run_temp_up. cbn [set_temp with_set_temp].
    destruct (half_degrees_up (k + Z.of_nat n) ltac:(lia)) as [-> ->].
    replace (k + Z.of_nat (S n)) with (k + Z.of_nat n + 1) by lia.
    destruct s; reflexivity.
Qed.

(** C3, as the specification states it, fails: after sixteen calls the
    temperature is 31.5, so the seventeenth call does not start from 32.0
    and is not a no-op. *)
Lemma temp_up_17_counterexample : ~ temp_up_17_as_specified HVACState_default.
Proof.
  unfold temp_up_17_as_specified. intros (_ & H & _).
  rewrite (times_temp_up 16 47) in H by (reflexivity || lia).
  vm_compute in H. discriminate H.
Qed.

(** C3, amended. From [set_temp = 23.5], seventeen calls of temp-up reach
    exactly 32.0; the seventeenth call starts from 31.5, sets 32.0, prints
    one line and redraws; it is the eighteenth call, from 32.0, that changes
    nothing and emits nothing. *)
Theorem temp_up_17_saturates (s : HVACState) :
  set_temp s = 23.5%float ->
  let s16 := state_after (times 16 FordFGHVACApp._on_temp_up) s in
  let s17 := state_after (times 17 FordFGHVACApp._on_temp_up) s in
  set_temp s16 = 31.5%float /\
  set_temp s17 = 32%float /\
  s17 = with_set_temp 32%float s /\
  FordFGHVACApp._on_temp_up s16 =
    (tt, s17, [Print [lit "[CAN TX] Temp: "; str_of_float 32%float; lit "°C"];
               Redraw (HVACDisplay.draw s17)]) /\
  FordFGHVACApp._on_temp_up s17 = (tt, s17, []).
Proof.
  intros E. cbv zeta.
  rewrite (times_temp_up 16 47 s), (times_temp_up 17 47 s) by (exact E || lia).
  change (half_degrees (47 + Z.of_nat 16)) with 31.5%float.
  change (half_degrees (47 + Z.of_nat 17)) with 32%float.
  rewrite !run_temp_up. cbn [set_temp with_set_temp].
  change (31.5 <? 32)%float with true. change (32 <? 32)%float with false.
  change (31.5 + 0.5)%float with 32%float.
  repeat split.
Qed.

Lemma temp_up_17_saturates_witness :
  set_temp HVACState_default = 23.5%float /\
  set_temp (state_after (times 17 FordFGHVACApp._on_temp_up) HVACState_default)
  = 32%float.
Proof.
  split; [reflexivity|].
  exact (proj1 (proj2 (temp_up_17_saturates HVACState_default eq_refl))).
Defined.

(* ================================================================== *)
(** ** Click dispatch *)
(* ================================================================== *)

Lemma band_below_8 (x : Z) : (band x < 8)%nat.
Proof.
  unfold band. apply Nat.le_lt_trans with (List.length HVACButtons.dividers).
  - apply filter_length_le.
  - simpl. lia.
Qed.

Lemma band_name_in (x : Z) : In (band_name x) button_names.
Proof.
  unfold band_name. apply nth_In. change (List.length button_names) with 8%nat.
  apply band_below_8.
Qed.

Lemma button_names_bound :
  forall key, In key button_names -> In key (Py.keys FordFGHVACApp.callbacks).
Proof.
  intros key H. cbn in H. cbn. tauto.
Qed.

(** C4. A click at any [x] on the button panel calls exactly one callback:
    whatever calling means, the handler is one call of the name of the band
    that holds [x] among the eight bands cut at 72, 144, 216, 288, 360, 432
    and 504; the list of names called has that one element, never none and
    never two.  A click at [x = 40] calls [off] and nothing else. *)
Theorem button_click_one_callback (x : Z) :
  (forall (T : Type) (call : string -> T),
     HVACButtons._on_click call x = call (band_name x)) /\
  button_calls x = [band_name x] /\
  (exists! key, button_calls x = [key]) /\
  In (band_name x) button_names /\
  FordFGHVACApp.click_button x = FordFGHVACApp.call (band_name x) /\
  button_calls 40 = ["off"] /\
  FordFGHVACApp.click_button 40 = FordFGHVACApp._on_off.
Proof.
  split; [intros T call; apply button_click_is_call|].
  split; [apply (button_click_is_call (fun key => [key]))|].
  split.
  { exists (band_name x). split.
    - apply (button_click_is_call (fun key => [key])).
    - intros key H. unfold button_calls in H.
      rewrite (button_click_is_call (fun key => [key])) in H. congruence. }
  split; [apply band_name_in|].
  split; [apply button_click_is_call|].
  split; reflexivity.
Qed.

(** C10. The button dispatch is total over all integers: every [x < 72],
    negative ones included, calls [off]; every [x >= 504], also beyond the
    panel width 580, calls [rear_def]; and for any [x] the one name called
    is one of the eight button names, each bound in the callback table. *)
Theorem button_click_total (x : Z) :
  (x < 72 -> button_calls x = ["off"] /\
             FordFGHVACApp.click_button x = FordFGHVACApp._on_off) /\
  (504 <= x -> button_calls x = ["rear_def"] /\
               FordFGHVACApp.click_button x = FordFGHVACApp._on_rear_def) /\
  (exists key, button_calls x = [key] /\ In key button_names /\
               In key (Py.keys FordFGHVACApp.callbacks)).
Proof.
  unfold button_calls, FordFGHVACApp.click_button, HVACButtons._on_click.
  split; [intros H; decide_cmp; split; reflexivity|].
  split; [intros H; decide_cmp; split; reflexivity|].
  exists (band_name x). split; [|split].
  - apply (button_click_is_call (fun key => [key])).
  - apply band_name_in.
  - apply button_names_bound, band_name_in.
Qed.

Lemma button_click_total_witness :
  (-5 < 72 /\ button_calls (-5) = ["off"]) /\
  (504 <= 600 /\ button_calls 600 = ["rear_def"]).
Proof.
  split.
  - split; [lia|]. apply (proj1 (button_click_total (-5))). lia.
  - split; [lia|]. apply (proj1 (proj2 (button_click_total 600))). lia.
Defined.

(** C7. A click at any [x] on the slider panel calls at most one callback.
    The panel is cut in thirds at 193 and 387, and each third in a decrement
    zone, a dead zone and an increment zone by its inner breakpoints (50 and
    140, 240 and 340, 430 and 530): the names called are those of the zone,
    and a click in a dead zone calls nothing. *)
Theorem slider_click_zones (x : Z) :
  (forall (T : Type) (call : string -> T) (pass_ : T),
     HVACSliders._on_click call pass_ x =
     match zone_calls x with [] => pass_ | key :: _ => call key end) /\
  slider_calls x = zone_calls x /\
  (List.length (slider_calls x) <= 1)%nat /\
  (zone_of x = dead -> slider_calls x = [] /\
                       FordFGHVACApp.click_slider x = ret tt) /\
  (x < 50 -> slider_calls x = ["pass_temp_down"]) /\
  (50 <= x <= 140 -> zone_of x = dead) /\
  (140 < x < 193 -> slider_calls x = ["pass_temp_up"]) /\
  (193 <= x < 240 -> slider_calls x = ["fan_down"]) /\
  (240 <= x <= 340 -> zone_of x = dead) /\
  (340 < x < 387 -> slider_calls x = ["fan_up"]) /\
  (387 <= x < 430 -> slider_calls x = ["drv_temp_down"]) /\
  (430 <= x <= 530 -> zone_of x = dead) /\
  (530 < x -> slider_calls x = ["drv_temp_up"]).
Proof.
  assert (Hcalls : slider_calls x = zone_calls x).
  { unfold slider_calls. rewrite slider_click_is_calls.
    unfold zone_calls. destruct (nth _ _ _), (zone_of x); reflexivity. }
  split; [intros; apply slider_click_is_calls|].
  split; [exact Hcalls|].
  split.
  { rewrite Hcalls. unfold zone_calls.
    destruct (nth _ _ _), (zone_of x); simpl; lia. }
  split.
  { intros Hd. split.
    - rewrite Hcalls. unfold zone_calls. rewrite Hd. now destruct (nth _ _ _).
    - unfold FordFGHVACApp.click_slider. rewrite slider_click_is_calls.
      unfold zone_calls. rewrite Hd. now destruct (nth _ _ _). }
  unfold slider_calls, HVACSliders._on_click, zone_of, third, inner_breakpoints.
  repeat (split; [intros H; decide_cmp; cbn [nth]; decide_cmp; reflexivity|]).
  intros H; decide_cmp; cbn [nth]; decide_cmp; reflexivity.
Qed.

Lemma slider_click_zones_witness :
  (zone_of 100 = dead /\ slider_calls 100 = []) /\
  (20 < 50 /\ slider_calls 20 = ["pass_temp_down"]) /\
  (140 < 150 < 193 /\ slider_calls 150 = ["pass_temp_up"]) /\
  (193 <= 200 < 240 /\ slider_calls 200 = ["fan_down"]) /\
  (340 < 350 < 387 /\ slider_calls 350 = ["fan_up"]) /\
  (387 <= 400 < 430 /\ slider_calls 400 = ["drv_temp_down"]) /\
  (530 < 550 /\ slider_calls 550 = ["drv_temp_up"]) /\
  (50 <= 140 <= 140 /\ zone_of 140 = dead) /\
  (240 <= 300 <= 340 /\ zone_of 300 = dead) /\
  (430 <= 500 <= 530 /\ zone_of 500 = dead).
Proof.
  split; [split; [reflexivity | apply (slider_click_zones 100); reflexivity]|].
  split; [split; [lia | apply (slider_click_zones 20); lia]|].
  split; [split; [lia | apply (slider_click_zones 150); lia]|].
  split; [split; [lia | apply (slider_click_zones 200); lia]|].
  split; [split; [lia | apply (slider_click_zones 350); lia]|].
  split; [split; [lia | apply (slider_click_zones 400); lia]|].
  split; [split; [lia | apply (slider_click_zones 550); lia]|].
  split; [split; [lia | destruct (slider_click_zones 140) as (_&_&_&_&_&H&_); apply H; lia]|].
  split; [split; [lia | destruct (slider_click_zones 300) as (_&_&_&_&_&_&_&_&H&_); apply H; lia]|].
  split; [lia | destruct (slider_click_zones 500) as (_&_&_&_&_&_&_&_&_&_&_&H&_); apply H; lia].
Defined.

(* ================================================================== *)
(** ** Stateless commands *)
(* ================================================================== *)

(** C9. Each of the commands [off], [recirc], [hazard] and [air_dir] prints
    exactly one line, leaves the state as it was, field for field, and does
    not redraw the display. *)
Theorem stateless_commands (s : HVACState) :
  FordFGHVACApp.call "off" s = (tt, s, [Print [lit "[CAN TX] OFF pressed"]]) /\
  FordFGHVACApp.call "recirc" s = (tt, s, [Print [lit "[CAN TX] Recirc pressed"]]) /\
  FordFGHVACApp.call "hazard" s = (tt, s, [Print [lit "[CAN] Hazard"]]) /\
  FordFGHVACApp.call "air_dir" s = (tt, s, [Print [lit "[CAN] Air direction"]]) /\
  Forall (fun key =>
            state_after (FordFGHVACApp.call key) s = s /\
            List.length (log_lines (events_of (FordFGHVACApp.call key) s)) = 1%nat /\
            redraws (events_of (FordFGHVACApp.call key) s) = [])
         ["off"; "recirc"; "hazard"; "air_dir"].
Proof.
  repeat split; repeat constructor.
Qed.

(* ================================================================== *)
(** ** The seven-segment table *)
(* ================================================================== *)

Lemma dict_get_not_in {V : Type} (d : list (string * V)) (key : string) (default : V) :
  ~ In key (Py.keys d) -> Py.dict_get d key default = default.
Proof.
  induction d as [| [k v] rest IH]; intros Hn; cbn [Py.dict_get].
  - reflexivity.
  - destruct (String.eqb_spec k key) as [-> | Hne].
    + exfalso. apply Hn. left. reflexivity.
    + apply IH. intros Hin. apply Hn. right. exact Hin.
Qed.

Lemma dict_get_in {V : Type} (d : list (string * V)) (key : string) (v default : V) :
  NoDup (Py.keys d) -> In (key, v) d -> Py.dict_get d key default = v.
Proof.
  induction d as [| [k w] rest IH]; intros Hnd Hin; cbn [Py.dict_get].
  - destruct Hin.
  - cbn in Hnd. inversion Hnd as [| ? ? Hk Hrest]; subst.
    destruct Hin as [Heq | Hin].
    + injection Heq as -> ->. rewrite String.eqb_refl. reflexivity.
    + destruct (String.eqb_spec k key) as [-> | Hne].
      * exfalso. apply Hk. apply (in_map fst) in Hin. exact Hin.
      * now apply IH.
Qed.

Lemma patterns_keys_NoDup : NoDup (Py.keys HVACDisplay.patterns).
Proof.
  cbn. repeat (constructor; [cbn; intuition discriminate|]). constructor.
Qed.

Lemma draw_7seg_unknown (x y : Z) (digit size : string) :
  Py.dict_get HVACDisplay.patterns digit HVACDisplay.all_off = HVACDisplay.all_off ->
  HVACDisplay._draw_7seg x y digit size = [].
Proof.
  intros E. unfold HVACDisplay._draw_7seg. rewrite E.
  destruct (String.eqb size "large"); reflexivity.
Qed.

(** C5. The pattern table is total.  Its keys are the ten digits, ['-'] and
    the space, each once, so each of these characters has exactly one
    pattern of seven flags, the one the lookup returns; ['-'] lights only
    segment G and the space lights none; any other character gets the
    all-off pattern and nothing is drawn for it. *)
Theorem seven_segment_table_total :
  Py.keys HVACDisplay.patterns =
    ["0"; "1"; "2"; "3"; "4"; "5"; "6"; "7"; "8"; "9"; "-"; " "] /\
  NoDup (Py.keys HVACDisplay.patterns) /\
  (forall digit p,
     In (digit, p) HVACDisplay.patterns ->
     flags p /\ Py.dict_get HVACDisplay.patterns digit HVACDisplay.all_off = p) /\
  Py.dict_get HVACDisplay.patterns "-" HVACDisplay.all_off = (0, 0, 0, 0, 0, 0, 1) /\
  Py.dict_get HVACDisplay.patterns " " HVACDisplay.all_off = (0, 0, 0, 0, 0, 0, 0) /\
  (forall x y,
     HVACDisplay._draw_7seg x y "-" "large" =
       [create_polygon [x + 6; y + 20; x + 18; y + 20; x + 18; y + 24; x + 6; y + 24]
                       true 1] /\
     HVACDisplay._draw_7seg x y "-" "small" =
       [create_polygon [x + 4; y + 9; x + 8; y + 9; x + 8; y + 11; x + 4; y + 11]
                       true 1]) /\
  (forall x y size, HVACDisplay._draw_7seg x y " " size = []) /\
  (forall digit,
     ~ In digit (Py.keys HVACDisplay.patterns) ->
     Py.dict_get HVACDisplay.patterns digit HVACDisplay.all_off = HVACDisplay.all_off /\
     forall x y size, HVACDisplay._draw_7seg x y digit size = []).
Proof.
  split; [reflexivity|].
  split; [exact patterns_keys_NoDup|].
  split.
  { intros digit p Hin. split.
    - cbn in Hin.
      repeat (destruct Hin as [Heq | Hin];
              [injection Heq as <- <-; cbn; unfold is_flag; intuition lia|]).
      destruct Hin.
    - apply dict_get_in; [exact patterns_keys_NoDup | exact Hin]. }
  split; [reflexivity|].
  split; [reflexivity|].
  split.
  { intros x y. unfold HVACDisplay._draw_7seg. cbn.
    split; do 2 f_equal; repeat (apply f_equal2; [lia|]); reflexivity. }
  split.
  { intros x y size. apply draw_7seg_unknown. reflexivity. }
  intros digit Hn.
  assert (E := dict_get_not_in HVACDisplay.patterns digit HVACDisplay.all_off Hn).
  split; [exact E|]. intros x y size. apply draw_7seg_unknown, E.
Qed.

Lemma seven_segment_table_total_witness :
  In ("7", (1, 1, 1, 0, 0, 0, 0)) HVACDisplay.patterns /\
  Py.dict_get HVACDisplay.patterns "7" HVACDisplay.all_off = (1, 1, 1, 0, 0, 0, 0) /\
  ~ In "A" (Py.keys HVACDisplay.patterns) /\
  HVACDisplay._draw_7seg 455 28 "A" "large" = [].
Proof.
  assert (Hin : In ("7", (1, 1, 1, 0, 0, 0, 0)) HVACDisplay.patterns)
    by (cbn; tauto).
  assert (Hn : ~ In "A" (Py.keys HVACDisplay.patterns))
    by (cbn; intuition discriminate).
  destruct seven_segment_table_total as (_ & _ & Hkey & _ & _ & _ & _ & Hother).
  split; [exact Hin|]. split; [apply (Hkey _ _ Hin)|].
  split; [exact Hn|]. apply (Hother "A" Hn).
Defined.

(* ================================================================== *)
(** ** What the display shows *)
(* ================================================================== *)

(** [draw] reads four fields of the state and no other. *)
Lemma draw_reads (s s' : HVACState) :
  hours s = hours s' -> minutes s = minutes s' ->
  set_temp s = set_temp s' -> fan_speed s = fan_speed s' ->
  HVACDisplay.draw s = HVACDisplay.draw s'.
Proof.
  intros Hh Hm Ht Hf.
  unfold HVACDisplay.draw, HVACDisplay.draw_clock, HVACDisplay.draw_set_temp,
    HVACDisplay.draw_fan.
  rewrite Hh, Hm, Ht, Hf. reflexivity.
Qed.

Lemma toggle_ac_twice (s : HVACState) :
  state_after FordFGHVACApp._on_ac (state_after FordFGHVACApp._on_ac s) = s.
Proof.
  unfold state_after. rewrite !run_toggle_ac. destruct s as [? ? ? []]; reflexivity.
Qed.

(** C6, as the specification states it, fails: the redraw after the toggle
    shows the same bottom labels as before, although [ac_on] changed. *)
Lemma ac_scenario_counterexample : ~ ac_scenario_as_specified HVACState_default.
Proof.
  unfold ac_scenario_as_specified. rewrite run_toggle_ac. cbv beta iota zeta.
  rewrite run_toggle_ac. cbv beta iota zeta. cbn [redraws filter is_redraw].
  intros (_ & _ & (canvas & Hr & Hne) & _).
  injection Hr as <-. apply Hne. apply (f_equal bottom_labels).
  now apply draw_reads.
Qed.

(** C6, amended. From the default state the [ac] command sets [ac_on] to
    [True], prints the one line [[CAN TX] A/C: On] and redraws the display;
    the redrawn display is the one shown before, its bottom labels being the
    fixed texts [Semi-Auto] and [A/C Off].  A second call sets [ac_on] back
    to [False] and gives the default state again, as toggling twice does
    from any state. *)
Theorem ac_toggle_scenario :
  let s0 := HVACState_default in
  let s1 := with_ac_on true s0 in
  FordFGHVACApp._on_ac s0 =
    (tt, s1, [Print [lit "[CAN TX] A/C: "; lit "On"]; Redraw (HVACDisplay.draw s1)]) /\
  ac_on s1 = true /\
  HVACDisplay.draw s1 = HVACDisplay.draw s0 /\
  bottom_labels (HVACDisplay.draw s1) = ["Semi-Auto"; "A/C Off"] /\
  FordFGHVACApp._on_ac s1 =
    (tt, s0, [Print [lit "[CAN TX] A/C: "; lit "Off"]; Redraw (HVACDisplay.draw s0)]) /\
  ac_on s0 = false /\
  (forall s, state_after FordFGHVACApp._on_ac (state_after FordFGHVACApp._on_ac s) = s).
Proof.
  cbv zeta.
  split; [reflexivity|]. split; [reflexivity|]. split; [reflexivity|].
  split; [vm_compute; reflexivity|].
  split; [reflexivity|]. split; [reflexivity|].
  exact toggle_ac_twice.
Qed.

(** The loop over [temp_str] lays the characters out as a row of glyphs. *)
Lemma draw_temp_chars (chars : list string) (x : Z) (items : list canvas_item) :
  fold_left HVACDisplay.draw_temp_char chars (x, items) =
  (row_end x chars, (items ++ glyph_row x chars)%list).
Proof.
  revert x items. induction chars as [| c rest IH]; intros x items.
  - cbn. now rewrite app_nil_r.
  - cbn [fold_left glyph_row]. unfold row_end. cbn [fold_left].
    unfold HVACDisplay.draw_temp_char at 2. unfold glyph, advance.
    destruct (String.eqb c "."); rewrite IH, <- app_assoc; reflexivity.
Qed.

Lemma outside_temp_call (key : string) (s : HVACState) :
  outside_temp (state_after (FordFGHVACApp.call key) s) = outside_temp s.
Proof.
  pattern (FordFGHVACApp.call key). apply call_cases; try reflexivity;
    unfold state_after;
    rewrite ?run_fan_up, ?run_fan_down, ?run_temp_up, ?run_temp_down;
    match goal with |- context [if ?b then _ else _] => destruct b end;
    reflexivity.
Qed.

Lemma outside_temp_perform (a : action) (s : HVACState) :
  outside_temp (state_after (perform a) s) = outside_temp s.
Proof.
  destruct a as [key | x | x | h m]; cbn [perform].
  - apply outside_temp_call.
  - unfold FordFGHVACApp.click_button. rewrite button_click_is_call.
    apply outside_temp_call.
  - unfold FordFGHVACApp.click_slider. rewrite slider_click_is_calls.
    destruct (zone_calls x); [reflexivity | apply outside_temp_call].
  - reflexivity.
Qed.

Lemma outside_temp_perform_all (acts : list action) (s : HVACState) :
  outside_temp (state_after (perform_all acts) s) = outside_temp s.
Proof.
  revert s. induction acts as [| a rest IH]; intros s; cbn [perform_all].
  - reflexivity.
  - rewrite state_after_bind, IH. apply outside_temp_perform.
Qed.

(** C8, as the specification states it, fails: with [outside_temp = 5] the
    display still shows the glyphs of [-12]. *)
Lemma display_outside_temp_counterexample :
  HVACDisplay.draw (with_outside_temp 5 HVACState_default) <>
  display_as_specified (with_outside_temp 5 HVACState_default).
Proof.
  unfold HVACDisplay.draw, display_as_specified. intros H.
  do 2 apply app_inv_head in H. apply app_inv_tail in H.
  vm_compute in H. discriminate H.
Qed.

(** C8, amended. For every state the display draws the set temperature as
    the characters of [set_temp] formatted with [04.1f] (one decimal place),
    left to right from x = 455: each digit through the large seven-segment
    renderer, the decimal point as a dot, then the degree sign.  The outside
    temperature is drawn as the fixed characters [-], [1], [2] through the
    small seven-segment renderer, whatever [outside_temp] holds; this is the
    signed two-digit form of [outside_temp] when it is -12, its default and
    its value in every reachable state, since no command assigns it.  The
    display is a function of the state, and of its fields [hours],
    [minutes], [set_temp] and [fan_speed] only. *)
Theorem display_temperatures (s : HVACState) :
  (let chars := Py.chars (Py.format_04_1f (set_temp s)) in
   HVACDisplay.draw_set_temp s =
     (create_text 480 12 "Set Temp" (mkFont "Arial" 10 false) anchor_w
      :: glyph_row HVACDisplay.temp_x chars ++
      [create_text (row_end HVACDisplay.temp_x chars + 5) (HVACDisplay.temp_y + 5)
                   "°" (mkFont "Arial" 14 true) anchor_w])%list) /\
  HVACDisplay.draw_outside_temp =
    (create_text 310 15 "Outside" (mkFont "Arial" 10 false) anchor_w
     :: HVACDisplay._draw_7seg 365 8 "-" "small" ++
        HVACDisplay._draw_7seg 378 8 "1" "small" ++
        HVACDisplay._draw_7seg 394 8 "2" "small" ++
     [create_text 415 15 "°C" (mkFont "Arial" 10 false) anchor_w])%list /\
  (forall v, HVACDisplay.draw (with_outside_temp v s) = HVACDisplay.draw s) /\
  (outside_temp s = -12 -> HVACDisplay.draw s = display_as_specified s) /\
  (forall s', reachable s' -> outside_temp s' = -12) /\
  (forall s', hours s = hours s' -> minutes s = minutes s' ->
              set_temp s = set_temp s' -> fan_speed s = fan_speed s' ->
              HVACDisplay.draw s = HVACDisplay.draw s').
Proof.
  split.
  { cbv zeta. unfold HVACDisplay.draw_set_temp. rewrite draw_temp_chars.
    reflexivity. }
  split; [reflexivity|].
  split; [intros v; now apply draw_reads|].
  split.
  { intros E. unfold HVACDisplay.draw, display_as_specified, spec_draw_outside_temp.
    rewrite E. reflexivity. }
  split; [intros s' [acts <-]; apply outside_temp_perform_all|].
  apply draw_reads.
Qed.

Lemma display_temperatures_witness :
  (outside_temp HVACState_default = -12 /\
   HVACDisplay.draw HVACState_default = display_as_specified HVACState_default) /\
  (let s := state_after (perform (Command "drv_temp_up")) HVACState_default in
   reachable s /\ outside_temp s = -12).
Proof.
  destruct (display_temperatures HVACState_default) as (_ & _ & _ & H & Hr & _).
  split; [split; [reflexivity | apply H; reflexivity]|].
  cbv zeta. assert (R : reachable (state_after (perform (Command "drv_temp_up"))
                                              HVACState_default))
    by (exists [Command "drv_temp_up"]; reflexivity).
  split; [exact R | apply Hr, R].
Defined.

(** In every state that satisfies the invariant the set temperature is shown
    with four characters: two digits, the point, and 0 or 5. *)
Lemma format_half_degrees k : 32 <= k <= 64 ->
  Py.format_04_1f (half_degrees k) =
  (Py.str_int (k / 2) ++ "." ++ (if Z.even k then "0" else "5"))%string.
Proof.
  intros Hk. assert (H : 32 <= k < 32 + Z.of_nat 33) by lia. clear Hk.
  revert k H. apply Z_between_cases.
  each_case ltac:(vm_compute; reflexivity).
Qed.

(** Its row on the display: the tens digit at x = 455, the units digit at
    487, the dot at 519, the tenths digit at 529 and the degree sign at
    566. *)
Lemma draw_set_temp_in_range (s : HVACState) (k : Z) :
  32 <= k <= 64 -> set_temp s = half_degrees k ->
  HVACDisplay.draw_set_temp s =
    (create_text 480 12 "Set Temp" (mkFont "Arial" 10 false) anchor_w
     :: HVACDisplay._draw_7seg 455 28 (Py.str_int (k / 20)) "large" ++
        HVACDisplay._draw_7seg 487 28 (Py.str_int ((k / 2) mod 10)) "large" ++
        [create_oval 519 70 525 76 true 1] ++
        HVACDisplay._draw_7seg 529 28 (if Z.even k then "0" else "5") "large" ++
     [create_text 566 33 "°" (mkFont "Arial" 14 true) anchor_w])%list.
Proof.
  intros Hk E. unfold HVACDisplay.draw_set_temp. rewrite E. clear E s.
  assert (H : 32 <= k < 32 + Z.of_nat 33) by lia. clear Hk.
  revert k H. apply Z_between_cases.
  each_case ltac:(vm_compute; reflexivity).
Qed.

(* ================================================================== *)
(** ** Further properties of the callbacks *)
(* ================================================================== *)

Lemma events_of_bind {A B : Type} (m : M A) (k : A -> M B) (s : HVACState) :
  events_of (bind m k) s =
  (events_of m s ++ events_of (k (fst (fst (m s)))) (state_after m s))%list.
Proof.
  unfold events_of, state_after, bind. destruct (m s) as [[a s1] out1]. simpl.
  destruct (k a s1) as [[b s2] out2]. reflexivity.
Qed.

(** The state each callback leaves. *)
Lemma after_fan_up (s : HVACState) :
  state_after FordFGHVACApp._on_fan_up s =
  if fan_speed s <? 8 then with_fan_speed (fan_speed s + 1) s else s.
Proof.
  unfold state_after. rewrite run_fan_up. now destruct (fan_speed s <? 8).
Qed.

Lemma after_fan_down (s : HVACState) :
  state_after FordFGHVACApp._on_fan_down s =
  if 0 <? fan_speed s then with_fan_speed (fan_speed s - 1) s else s.
Proof.
  unfold state_after. rewrite run_fan_down, Z.gtb_ltb.
  now destruct (0 <? fan_speed s).
Qed.

Lemma after_temp_up (s : HVACState) :
  state_after FordFGHVACApp._on_temp_up s =
  if (set_temp s <? 32)%float then with_set_temp (set_temp s + 0.5)%float s else s.
Proof.
  unfold state_after. rewrite run_temp_up. now destruct (set_temp s <? 32)%float.
Qed.

Lemma after_temp_down (s : HVACState) :
  state_after FordFGHVACApp._on_temp_down s =
  if (16 <? set_temp s)%float then with_set_temp (set_temp s - 0.5)%float s else s.
Proof.
  unfold state_after. rewrite run_temp_down. now destruct (16 <? set_temp s)%float.
Qed.

Lemma after_ac (s : HVACState) :
  state_after FordFGHVACApp._on_ac s = with_ac_on (negb (ac_on s)) s.
Proof. reflexivity. Qed.

Lemma after_auto (s : HVACState) :
  state_after FordFGHVACApp._on_auto s = with_auto_mode (negb (auto_mode s)) s.
Proof. reflexivity. Qed.

Lemma after_front_def (s : HVACState) :
  state_after FordFGHVACApp._on_front_def s =
  with_front_defrost (negb (front_defrost s)) s.
Proof. reflexivity. Qed.

Lemma after_rear_def (s : HVACState) :
  state_after FordFGHVACApp._on_rear_def s =
  with_rear_defrost (negb (rear_defrost s)) s.
Proof. reflexivity. Qed.

Ltac after_callbacks :=
  rewrite ?after_fan_up, ?after_fan_down, ?after_temp_up, ?after_temp_down,
    ?after_ac, ?after_auto, ?after_front_def, ?after_rear_def.

Lemma toggle_cases (P : string -> Prop) (t : string) :
  In t toggles -> P "ac" -> P "auto" -> P "front_def" -> P "rear_def" -> P t.
Proof.
  intros Hin. cbn in Hin.
  destruct Hin as [<- | [<- | [<- | [<- | []]]]]; auto.
Qed.

Lemma call_toggle_commute (t key : string) (s : HVACState) :
  In t toggles ->
  state_after (FordFGHVACApp.call key) (state_after (FordFGHVACApp.call t) s) =
  state_after (FordFGHVACApp.call t) (state_after (FordFGHVACApp.call key) s).
Proof.
  intros Hin. pattern t. apply (toggle_cases _ t Hin);
    change (FordFGHVACApp.call "ac") with FordFGHVACApp._on_ac;
    change (FordFGHVACApp.call "auto") with FordFGHVACApp._on_auto;
    change (FordFGHVACApp.call "front_def") with FordFGHVACApp._on_front_def;
    change (FordFGHVACApp.call "rear_def") with FordFGHVACApp._on_rear_def;
    pattern (FordFGHVACApp.call key); apply call_cases;
    try reflexivity;
    after_callbacks; destruct s; cbn;
    repeat match goal with |- context [if ?b then _ else _] => destruct b end;
    reflexivity.
Qed.

(** X1. Each of the four toggle commands flips its own flag and nothing
    else: calling it twice gives the state back, it commutes with every
    other callback, and the display it redraws is the display as it was,
    after exactly one printed line. *)
Theorem toggles_independent (t key : string) (s : HVACState) :
  In t toggles ->
  let s' := state_after (FordFGHVACApp.call t) s in
  state_after (FordFGHVACApp.call t) s' = s /\
  s' <> s /\
  state_after (FordFGHVACApp.call key) s' =
    state_after (FordFGHVACApp.call t) (state_after (FordFGHVACApp.call key) s) /\
  HVACDisplay.draw s' = HVACDisplay.draw s /\
  (exists l, events_of (FordFGHVACApp.call t) s = [Print l; Redraw (HVACDisplay.draw s)]).
Proof.
  intros Hin. cbv zeta.
  split; [|split; [|split; [now apply call_toggle_commute|]]].
  - pattern t. apply (toggle_cases _ t Hin);
      destruct s as [? ? ? [] [] [] []]; reflexivity.
  - pattern t. apply (toggle_cases _ t Hin);
      destruct s as [? ? ? [] [] [] []]; discriminate.
  - pattern t. apply (toggle_cases _ t Hin); split;
      solve [reflexivity | eexists; reflexivity].
Qed.

Lemma toggles_independent_witness :
  In "auto" toggles /\
  state_after (FordFGHVACApp.call "auto")
    (state_after (FordFGHVACApp.call "auto") HVACState_default) = HVACState_default /\
  state_after (FordFGHVACApp.call "fan_up")
    (state_after (FordFGHVACApp.call "auto") HVACState_default) =
  state_after (FordFGHVACApp.call "auto")
    (state_after (FordFGHVACApp.call "fan_up") HVACState_default).
Proof.
  assert (Hin : In "auto" toggles) by (cbn; tauto).
  destruct (toggles_independent "auto" "fan_up" HVACState_default Hin)
    as (H1 & _ & H2 & _).
  split; [exact Hin|]. split; [exact H1 | exact H2].
Defined.

(** X2. A callback, bound or not, assigns at most one field of the state,
    and never the clock or the outside temperature. *)
Theorem callback_single_assignment (key : string) (s : HVACState) :
  one_setting_changed s (state_after (FordFGHVACApp.call key) s) /\
  hours (state_after (FordFGHVACApp.call key) s) = hours s /\
  minutes (state_after (FordFGHVACApp.call key) s) = minutes s /\
  outside_temp (state_after (FordFGHVACApp.call key) s) = outside_temp s.
Proof.
  unfold one_setting_changed.
  pattern (FordFGHVACApp.call key). apply call_cases; after_callbacks;
    try (split; [left; reflexivity | repeat split]);
    try match goal with |- context [if ?b then _ else _] => destruct b end;
    (split; [|repeat split]);
    first [ left; reflexivity
          | right; left; eexists; reflexivity
          | right; right; left; eexists; reflexivity
          | right; right; right; left; eexists; reflexivity
          | right; right; right; right; left; eexists; reflexivity
          | right; right; right; right; right; left; eexists; reflexivity
          | right; right; right; right; right; right; eexists; reflexivity ].
Qed.

(* ================================================================== *)
(** ** Wiring of the panels *)
(* ================================================================== *)

Lemma zone_calls_in (x : Z) (key : string) :
  In key (zone_calls x) -> In key slider_commands.
Proof.
  unfold zone_calls, zone_of, third, inner_breakpoints.
  destruct (zone_cases x) as [H|[H|[H|[H|[H|[H|[H|[H|H]]]]]]]];
    decide_cmp; cbn [nth]; decide_cmp; cbn; tauto.
Qed.

Lemma slider_calls_zone (x : Z) : slider_calls x = zone_calls x.
Proof.
  unfold slider_calls. rewrite slider_click_is_calls.
  unfold zone_calls. destruct (nth _ _ _), (zone_of x); reflexivity.
Qed.

Ltac click_at x :=
  exists x; split; [lia | first [left; reflexivity | right; reflexivity]].

(** X3. The callback table and the two panels fit: every name bound in
    [self.callbacks] is called by a click at some [x] inside the panel width
    [0, 580) of one of the panels, and a click never calls a name that is
    not bound. *)
Theorem callbacks_wired (key : string) :
  In key (Py.keys FordFGHVACApp.callbacks) <->
  exists x, 0 <= x < 580 /\ (button_calls x = [key] \/ slider_calls x = [key]).
Proof.
  split.
  - intros Hin. cbn in Hin.
    repeat match type of Hin with
           | _ \/ _ => destruct Hin as [Hin | Hin]
           end; try contradiction; subst key;
      first [ click_at 36 | click_at 108 | click_at 180 | click_at 252
            | click_at 324 | click_at 396 | click_at 468 | click_at 540
            | click_at 350 | click_at 200 | click_at 150 | click_at 20
            | click_at 550 | click_at 400 ].
  - intros (x & _ & [H | H]).
    + unfold button_calls in H.
      rewrite (button_click_is_call (fun key => [key])) in H.
      injection H as <-. apply button_names_bound, band_name_in.
    + rewrite slider_calls_zone in H.
      assert (Hin : In key slider_commands)
        by (apply (zone_calls_in x); rewrite H; left; reflexivity).
      cbn in Hin. cbn. tauto.
Qed.

(** X4. The passenger and the driver temperature controls are one control:
    a click in the increment zone of either runs [_on_temp_up] on the one
    [set_temp], a click in the decrement zone of either runs
    [_on_temp_down]. *)
Theorem temperature_zones_shared (x x' : Z) :
  (140 < x < 193 -> 530 < x' ->
   FordFGHVACApp.click_slider x = FordFGHVACApp._on_temp_up /\
   FordFGHVACApp.click_slider x' = FordFGHVACApp._on_temp_up) /\
  (x < 50 -> 387 <= x' < 430 ->
   FordFGHVACApp.click_slider x = FordFGHVACApp._on_temp_down /\
   FordFGHVACApp.click_slider x' = FordFGHVACApp._on_temp_down).
Proof.
  unfold FordFGHVACApp.click_slider, HVACSliders._on_click.
  split; intros H H'; split; decide_cmp; reflexivity.
Qed.

Lemma temperature_zones_shared_witness :
  (140 < 160 < 193 /\ 530 < 545 /\
   FordFGHVACApp.click_slider 160 = FordFGHVACApp.click_slider 545) /\
  (30 < 50 /\ 387 <= 415 < 430 /\
   FordFGHVACApp.click_slider 30 = FordFGHVACApp.click_slider 415).
Proof.
  split.
  - destruct (proj1 (temperature_zones_shared 160 545)) as [E1 E2]; [lia | lia |].
    split; [lia|]. split; [lia|]. rewrite E1, E2. reflexivity.
  - destruct (proj2 (temperature_zones_shared 30 415)) as [E1 E2]; [lia | lia |].
    split; [lia|]. split; [lia|]. rewrite E1, E2. reflexivity.
Defined.

(* ================================================================== *)
(** ** Steps up and down *)
(* ================================================================== *)

Lemma with_set_temp_twice (a b : float) (s : HVACState) :
  with_set_temp a (with_set_temp b s) = with_set_temp a s.
Proof. reflexivity. Qed.

Lemma with_fan_speed_twice (a b : Z) (s : HVACState) :
  with_fan_speed a (with_fan_speed b s) = with_fan_speed a s.
Proof. reflexivity. Qed.

Lemma with_fan_speed_same (s : HVACState) : with_fan_speed (fan_speed s) s = s.
Proof. destruct s; reflexivity. Qed.

(** X5. Between the bounds temp-up and temp-down undo each other: from a
    temperature that is a multiple of 0.5 in range and below 32.0, up then
    down gives the state back, and from one above 16.0, down then up does.
    At 32.0 up then down ends at 31.5, and at 16.0 down then up ends at
    16.5. *)
Theorem temp_up_down_inverse (s : HVACState) :
  multiple_of_half_in_range (set_temp s) ->
  ((set_temp s <? 32)%float = true ->
   state_after FordFGHVACApp._on_temp_down (state_after FordFGHVACApp._on_temp_up s) = s) /\
  ((16 <? set_temp s)%float = true ->
   state_after FordFGHVACApp._on_temp_up (state_after FordFGHVACApp._on_temp_down s) = s) /\
  (set_temp s = 32%float ->
   state_after FordFGHVACApp._on_temp_down (state_after FordFGHVACApp._on_temp_up s)
   = with_set_temp 31.5%float s) /\
  (set_temp s = 16%float ->
   state_after FordFGHVACApp._on_temp_up (state_after FordFGHVACApp._on_temp_down s)
   = with_set_temp 16.5%float s).
Proof.
  intros Ht. apply multiple_of_half_in_range_inv in Ht as (k & Hk & E).
  after_callbacks. rewrite !E.
  split; [|split; [|split]].
  - intros Hlt. rewrite Hlt. cbn [set_temp with_set_temp].
    assert (Hk' : 32 <= k < 64).
    { destruct (Z.eq_dec k 64) as [-> |]; [|lia].
      rewrite half_degrees_top in Hlt. discriminate. }
    destruct (half_degrees_up k Hk') as [_ ->].
    destruct (half_degrees_down (k + 1) ltac:(lia)) as [-> ->].
    replace (k + 1 - 1) with k by lia.
    rewrite with_set_temp_twice, <- E. apply with_set_temp_same.
  - intros Hgt. rewrite Hgt. cbn [set_temp with_set_temp].
    assert (Hk' : 32 < k <= 64).
    { destruct (Z.eq_dec k 32) as [-> |]; [|lia].
      rewrite half_degrees_bottom in Hgt. discriminate. }
    destruct (half_degrees_down k Hk') as [_ ->].
    destruct (half_degrees_up (k - 1) ltac:(lia)) as [-> ->].
    replace (k - 1 + 1) with k by lia.
    rewrite with_set_temp_twice, <- E. apply with_set_temp_same.
  - intros E32. rewrite E32. change (32 <? 32)%float with false. cbv iota.
    rewrite E, E32. reflexivity.
  - intros E16. rewrite E16. change (16 <? 16)%float with false. cbv iota.
    rewrite E, E16. reflexivity.
Qed.

Lemma temp_up_down_inverse_witness :
  multiple_of_half_in_range (set_temp HVACState_default) /\
  (set_temp HVACState_default <? 32)%float = true /\
  state_after FordFGHVACApp._on_temp_down
    (state_after FordFGHVACApp._on_temp_up HVACState_default) = HVACState_default /\
  (16 <? set_temp HVACState_default)%float = true /\
  state_after FordFGHVACApp._on_temp_up
    (state_after FordFGHVACApp._on_temp_down HVACState_default) = HVACState_default /\
  set_temp (with_set_temp 32%float HVACState_default) = 32%float /\
  state_after FordFGHVACApp._on_temp_down
    (state_after FordFGHVACApp._on_temp_up (with_set_temp 32%float HVACState_default))
  = with_set_temp 31.5%float (with_set_temp 32%float HVACState_default) /\
  set_temp (with_set_temp 16%float HVACState_default) = 16%float /\
  state_after FordFGHVACApp._on_temp_up
    (state_after FordFGHVACApp._on_temp_down (with_set_temp 16%float HVACState_default))
  = with_set_temp 16.5%float (with_set_temp 16%float HVACState_default).
Proof.
  assert (H47 : multiple_of_half_in_range (set_temp HVACState_default)).
  { eexists. split; [vm_compute; reflexivity|].
    split; [split; vm_compute; discriminate | exists 47; vm_compute; reflexivity]. }
  assert (H64 : multiple_of_half_in_range
                  (set_temp (with_set_temp 32%float HVACState_default))).
  { eexists. split; [vm_compute; reflexivity|].
    split; [split; vm_compute; discriminate | exists 64; vm_compute; reflexivity]. }
  assert (H32 : multiple_of_half_in_range
                  (set_temp (with_set_temp 16%float HVACState_default))).
  { eexists. split; [vm_compute; reflexivity|].
    split; [split; vm_compute; discriminate | exists 32; vm_compute; reflexivity]. }
  destruct (temp_up_down_inverse _ H47) as (A & B & _).
  destruct (temp_up_down_inverse _ H64) as (_ & _ & C & _).
  destruct (temp_up_down_inverse _ H32) as (_ & _ & _ & D).
  split; [exact H47|]. split; [reflexivity|]. split; [apply A; reflexivity|].
  split; [reflexivity|]. split; [apply B; reflexivity|].
  split; [reflexivity|]. split; [apply C; reflexivity|].
  split; [reflexivity|]. apply D; reflexivity.
Defined.

(** X6. Between the bounds fan-up and fan-down undo each other: with
    [0 <= fan_speed < 8], up then down gives the state back, and with
    [0 < fan_speed <= 8], down then up does; at the bound the first call
    does nothing and the second moves one step inwards. *)
Theorem fan_up_down_inverse (s : HVACState) :
  (0 <= fan_speed s < 8 ->
   state_after FordFGHVACApp._on_fan_down (state_after FordFGHVACApp._on_fan_up s) = s) /\
  (0 < fan_speed s <= 8 ->
   state_after FordFGHVACApp._on_fan_up (state_after FordFGHVACApp._on_fan_down s) = s) /\
  (fan_speed s = 8 ->
   state_after FordFGHVACApp._on_fan_down (state_after FordFGHVACApp._on_fan_up s)
   = with_fan_speed 7 s) /\
  (fan_speed s = 0 ->
   state_after FordFGHVACApp._on_fan_up (state_after FordFGHVACApp._on_fan_down s)
   = with_fan_speed 1 s).
Proof.
  after_callbacks.
  split; [|split; [|split]]; intros H.
  - rewrite (proj2 (Z.ltb_lt (fan_speed s) 8)) by lia. cbn [fan_speed with_fan_speed].
    rewrite (proj2 (Z.ltb_lt 0 (fan_speed s + 1))) by lia.
    rewrite with_fan_speed_twice. replace (fan_speed s + 1 - 1) with (fan_speed s) by lia.
    apply with_fan_speed_same.
  - rewrite (proj2 (Z.ltb_lt 0 (fan_speed s))) by lia. cbn [fan_speed with_fan_speed].
    rewrite (proj2 (Z.ltb_lt (fan_speed s - 1) 8)) by lia.
    rewrite with_fan_speed_twice. replace (fan_speed s - 1 + 1) with (fan_speed s) by lia.
    apply with_fan_speed_same.
  - rewrite H. cbn [Z.ltb Z.compare Pos.compare Pos.compare_cont]. rewrite H. reflexivity.
  - rewrite H. cbn [Z.ltb Z.compare]. rewrite H. reflexivity.
Qed.

Lemma fan_up_down_inverse_witness :
  (0 <= fan_speed HVACState_default < 8 /\
   state_after FordFGHVACApp._on_fan_down
     (state_after FordFGHVACApp._on_fan_up HVACState_default) = HVACState_default) /\
  (0 < fan_speed HVACState_default <= 8 /\
   state_after FordFGHVACApp._on_fan_up
     (state_after FordFGHVACApp._on_fan_down HVACState_default) = HVACState_default) /\
  (fan_speed (with_fan_speed 8 HVACState_default) = 8 /\
   state_after FordFGHVACApp._on_fan_down
     (state_after FordFGHVACApp._on_fan_up (with_fan_speed 8 HVACState_default))
   = with_fan_speed 7 (with_fan_speed 8 HVACState_default)) /\
  (fan_speed (with_fan_speed 0 HVACState_default) = 0 /\
   state_after FordFGHVACApp._on_fan_up
     (state_after FordFGHVACApp._on_fan_down (with_fan_speed 0 HVACState_default))
   = with_fan_speed 1 (with_fan_speed 0 HVACState_default)).
Proof.
  destruct (fan_up_down_inverse HVACState_default) as (A & B & _).
  destruct (fan_up_down_inverse (with_fan_speed 8 HVACState_default)) as (_ & _ & C & _).
  destruct (fan_up_down_inverse (with_fan_speed 0 HVACState_default)) as (_ & _ & _ & D).
  split; [split; [simpl; lia | apply A; simpl; lia]|].
  split; [split; [simpl; lia | apply B; simpl; lia]|].
  split; [split; [reflexivity | apply C; reflexivity]|].
  split; [reflexivity | apply D; reflexivity].
Defined.

(* ================================================================== *)
(** ** Repeated steps saturate *)
(* ================================================================== *)

Lemma events_of_times_S (n : nat) (m : M unit) (s : HVACState) :
  events_of (times (S n) m) s =
  (events_of (times n m) s ++ events_of m (state_after (times n m) s))%list.
Proof. cbn [times]. apply events_of_bind. Qed.

Lemma log_lines_app (out1 out2 : list event) :
  log_lines (out1 ++ out2) = (log_lines out1 ++ log_lines out2)%list.
Proof. apply filter_app. Qed.

Lemma temp_up_step (k : Z) (s : HVACState) :
  set_temp s = half_degrees k -> 32 <= k <= 64 ->
  state_after FordFGHVACApp._on_temp_up s =
    with_set_temp (half_degrees (Z.min (k + 1) 64)) s /\
  List.length (log_lines (events_of FordFGHVACApp._on_temp_up s)) =
    (if k <? 64 then 1%nat else 0%nat).
Proof.
  intros E Hk. unfold state_after, events_of. rewrite run_temp_up, E.
  destruct (Z.eq_dec k 64) as [-> | Hne].
  - rewrite half_degrees_top. cbn [fst snd]. split; [|reflexivity].
    change (Z.min (64 + 1) 64) with 64. rewrite <- E. symmetry.
    apply with_set_temp_same.
  - destruct (half_degrees_up k ltac:(lia)) as [-> ->].
    rewrite (proj2 (Z.ltb_lt k 64)) by lia.
    replace (Z.min (k + 1) 64) with (k + 1) by lia. split; reflexivity.
Qed.

Lemma temp_down_step (k : Z) (s : HVACState) :
  set_temp s = half_degrees k -> 32 <= k <= 64 ->
  state_after FordFGHVACApp._on_temp_down s =
    with_set_temp (half_degrees (Z.max (k - 1) 32)) s /\
  List.length (log_lines (events_of FordFGHVACApp._on_temp_down s)) =
    (if 32 <? k then 1%nat else 0%nat).
Proof.
  intros E Hk. unfold state_after, events_of. rewrite run_temp_down, E.
  destruct (Z.eq_dec k 32) as [-> | Hne].
  - rewrite half_degrees_bottom. cbn [fst snd]. split; [|reflexivity].
    change (Z.max (32 - 1) 32) with 32. rewrite <- E. symmetry.
    apply with_set_temp_same.
  - destruct (half_degrees_down k ltac:(lia)) as [-> ->].
    rewrite (proj2 (Z.ltb_lt 32 k)) by lia.
    replace (Z.max (k - 1) 32) with (k - 1) by lia. split; reflexivity.
Qed.

Lemma temp_up_n (n : nat) (k : Z) (s : HVACState) :
  set_temp s = half_degrees k -> 32 <= k <= 64 ->
  state_after (times n FordFGHVACApp._on_temp_up) s =
  with_set_temp (half_degrees (Z.min (k + Z.of_nat n) 64)) s.
Proof.
  intros E Hk. induction n as [| n IH].
  - cbn [times]. unfold state_after, ret. cbn [fst snd].
    replace (Z.min (k + Z.of_nat 0) 64) with k by lia.
    rewrite <- E. symmetry. apply with_set_temp_same.
  - rewrite state_after_times_S, IH.
    rewrite (proj1 (temp_up_step (Z.min (k + Z.of_nat n) 64)
               (with_set_temp (half_degrees (Z.min (k + Z.of_nat n) 64)) s)
               eq_refl ltac:(lia))).
    rewrite with_set_temp_twice. do 2 f_equal. lia.
Qed.

Lemma temp_down_n (n : nat) (k : Z) (s : HVACState) :
  set_temp s = half_degrees k -> 32 <= k <= 64 ->
  state_after (times n FordFGHVACApp._on_temp_down) s =
  with_set_temp (half_degrees (Z.max (k - Z.of_nat n) 32)) s.
Proof.
  intros E Hk. induction n as [| n IH].
  - cbn [times]. unfold state_after, ret. cbn [fst snd].
    replace (Z.max (k - Z.of_nat 0) 32) with k by lia.
    rewrite <- E. symmetry. apply with_set_temp_same.
  - rewrite state_after_times_S, IH.
    rewrite (proj1 (temp_down_step (Z.max (k - Z.of_nat n) 32)
               (with_set_temp (half_degrees (Z.max (k - Z.of_nat n) 32)) s)
               eq_refl ltac:(lia))).
    rewrite with_set_temp_twice. do 2 f_equal. lia.
Qed.

(** X7. Temperature steps saturate: from [k] half degrees within range, [n]
    calls of temp-up end at [min (k + n) 64] half degrees (32.0 at most) and
    print as many lines as steps were taken, [min n (64 - k)]; [n] calls of
    temp-down end at [max (k - n) 32] half degrees (16.0 at least) and
    print [min n (k - 32)] lines.  The calls at the bound are silent. *)
Theorem temp_steps_saturate (n : nat) (k : Z) (s : HVACState) :
  set_temp s = half_degrees k -> 32 <= k <= 64 ->
  (state_after (times n FordFGHVACApp._on_temp_up) s =
     with_set_temp (half_degrees (Z.min (k + Z.of_nat n) 64)) s /\
   List.length (log_lines (events_of (times n FordFGHVACApp._on_temp_up) s)) =
     Z.to_nat (Z.min (Z.of_nat n) (64 - k))) /\
  (state_after (times n FordFGHVACApp._on_temp_down) s =
     with_set_temp (half_degrees (Z.max (k - Z.of_nat n) 32)) s /\
   List.length (log_lines (events_of (times n FordFGHVACApp._on_temp_down) s)) =
     Z.to_nat (Z.min (Z.of_nat n) (k - 32))).
Proof.
  intros E Hk.
  split; (split; [now (apply temp_up_n || apply temp_down_n)|]);
    (induction n as [| n IH]; [cbn; lia|]);
    rewrite events_of_times_S, log_lines_app, length_app, IH.
  - rewrite (temp_up_n n k s E Hk).
    rewrite (proj2 (temp_up_step (Z.min (k + Z.of_nat n) 64)
               (with_set_temp (half_degrees (Z.min (k + Z.of_nat n) 64)) s)
               eq_refl ltac:(lia))).
    destruct (Z.ltb_spec (Z.min (k + Z.of_nat n) 64) 64); lia.
  - rewrite (temp_down_n n k s E Hk).
    rewrite (proj2 (temp_down_step (Z.max (k - Z.of_nat n) 32)
               (with_set_temp (half_degrees (Z.max (k - Z.of_nat n) 32)) s)
               eq_refl ltac:(lia))).
    destruct (Z.ltb_spec 32 (Z.max (k - Z.of_nat n) 32)); lia.
Qed.

Lemma temp_steps_saturate_witness :
  set_temp HVACState_default = half_degrees 47 /\ 32 <= 47 <= 64 /\
  state_after (times 40 FordFGHVACApp._on_temp_up) HVACState_default =
    with_set_temp 32%float HVACState_default /\
  List.length (log_lines (events_of (times 40 FordFGHVACApp._on_temp_up)
                                    HVACState_default)) = 17%nat /\
  state_after (times 40 FordFGHVACApp._on_temp_down) HVACState_default =
    with_set_temp 16%float HVACState_default.
Proof.
  destruct (temp_steps_saturate 40 47 HVACState_default eq_refl ltac:(lia))
    as [[Hu Hl] [Hd _]].
  split; [reflexivity|]. split; [lia|].
  split; [exact Hu|]. split; [exact Hl | exact Hd].
Defined.

Lemma fan_up_step (s : HVACState) :
  fan_speed s <= 8 ->
  state_after FordFGHVACApp._on_fan_up s = with_fan_speed (Z.min (fan_speed s + 1) 8) s /\
  List.length (log_lines (events_of FordFGHVACApp._on_fan_up s)) =
    (if fan_speed s <? 8 then 1%nat else 0%nat).
Proof.
  intros H. unfold state_after, events_of. rewrite run_fan_up.
  destruct (Z.ltb_spec (fan_speed s) 8).
  - replace (Z.min (fan_speed s + 1) 8) with (fan_speed s + 1) by lia.
    split; reflexivity.
  - replace (Z.min (fan_speed s + 1) 8) with (fan_speed s) by lia.
    cbn [fst snd]. split; [|reflexivity]. symmetry. apply with_fan_speed_same.
Qed.

Lemma fan_down_step (s : HVACState) :
  0 <= fan_speed s ->
  state_after FordFGHVACApp._on_fan_down s = with_fan_speed (Z.max (fan_speed s - 1) 0) s /\
  List.length (log_lines (events_of FordFGHVACApp._on_fan_down s)) =
    (if 0 <? fan_speed s then 1%nat else 0%nat).
Proof.
  intros H. unfold state_after, events_of. rewrite run_fan_down, Z.gtb_ltb.
  destruct (Z.ltb_spec 0 (fan_speed s)).
  - replace (Z.max (fan_speed s - 1) 0) with (fan_speed s - 1) by lia.
    split; reflexivity.
  - replace (Z.max (fan_speed s - 1) 0) with (fan_speed s) by lia.
    cbn [fst snd]. split; [|reflexivity]. symmetry. apply with_fan_speed_same.
Qed.

Lemma fan_up_n (n : nat) (s : HVACState) :
  fan_speed s <= 8 ->
  state_after (times n FordFGHVACApp._on_fan_up) s =
  with_fan_speed (Z.min (fan_speed s + Z.of_nat n) 8) s.
Proof.
  intros H. induction n as [| n IH].
  - cbn [times]. unfold state_after, ret. cbn [fst snd].
    replace (Z.min (fan_speed s + Z.of_nat 0) 8) with (fan_speed s) by lia.
    symmetry. apply with_fan_speed_same.
  - rewrite state_after_times_S, IH.
    rewrite (proj1 (fan_up_step (with_fan_speed (Z.min (fan_speed s + Z.of_nat n) 8) s)
                     ltac:(cbn; lia))).
    rewrite with_fan_speed_twice. cbn [fan_speed with_fan_speed]. f_equal. lia.
Qed.

Lemma fan_down_n (n : nat) (s : HVACState) :
  0 <= fan_speed s ->
  state_after (times n FordFGHVACApp._on_fan_down) s =
  with_fan_speed (Z.max (fan_speed s - Z.of_nat n) 0) s.
Proof.
  intros H. induction n as [| n IH].
  - cbn [times]. unfold state_after, ret. cbn [fst snd].
    replace (Z.max (fan_speed s - Z.of_nat 0) 0) with (fan_speed s) by lia.
    symmetry. apply with_fan_speed_same.
  - rewrite state_after_times_S, IH.
    rewrite (proj1 (fan_down_step (with_fan_speed (Z.max (fan_speed s - Z.of_nat n) 0) s)
                     ltac:(cbn; lia))).
    rewrite with_fan_speed_twice. cbn [fan_speed with_fan_speed]. f_equal. lia.
Qed.

(** X8. Fan steps saturate: with [fan_speed <= 8], [n] calls of fan-up end
    at [min (fan_speed + n) 8] after [min n (8 - fan_speed)] printed lines;
    with [fan_speed >= 0], [n] calls of fan-down end at
    [max (fan_speed - n) 0] after [min n fan_speed] printed lines. *)
Theorem fan_steps_saturate (n : nat) (s : HVACState) :
  (fan_speed s <= 8 ->
   state_after (times n FordFGHVACApp._on_fan_up) s =
     with_fan_speed (Z.min (fan_speed s + Z.of_nat n) 8) s /\
   List.length (log_lines (events_of (times n FordFGHVACApp._on_fan_up) s)) =
     Z.to_nat (Z.min (Z.of_nat n) (8 - fan_speed s))) /\
  (0 <= fan_speed s ->
   state_after (times n FordFGHVACApp._on_fan_down) s =
     with_fan_speed (Z.max (fan_speed s - Z.of_nat n) 0) s /\
   List.length (log_lines (events_of (times n FordFGHVACApp._on_fan_down) s)) =
     Z.to_nat (Z.min (Z.of_nat n) (fan_speed s))).
Proof.
  split; intros H; (split; [now (apply fan_up_n || apply fan_down_n)|]);
    (induction n as [| n IH]; [cbn; lia|]);
    rewrite events_of_times_S, log_lines_app, length_app, IH.
  - rewrite (fan_up_n n s H).
    rewrite (proj2 (fan_up_step (with_fan_speed (Z.min (fan_speed s + Z.of_nat n) 8) s)
                     ltac:(cbn; lia))).
    cbn [fan_speed with_fan_speed].
    destruct (Z.ltb_spec (Z.min (fan_speed s + Z.of_nat n) 8) 8); lia.
  - rewrite (fan_down_n n s H).
    rewrite (proj2 (fan_down_step (with_fan_speed (Z.max (fan_speed s - Z.of_nat n) 0) s)
                     ltac:(cbn; lia))).
    cbn [fan_speed with_fan_speed].
    destruct (Z.ltb_spec 0 (Z.max (fan_speed s - Z.of_nat n) 0)); lia.
Qed.

Lemma fan_steps_saturate_witness :
  fan_speed HVACState_default <= 8 /\ 0 <= fan_speed HVACState_default /\
  state_after (times 20 FordFGHVACApp._on_fan_up) HVACState_default =
    with_fan_speed 8 HVACState_default /\
  List.length (log_lines (events_of (times 20 FordFGHVACApp._on_fan_up)
                                    HVACState_default)) = 3%nat /\
  state_after (times 20 FordFGHVACApp._on_fan_down) HVACState_default =
    with_fan_speed 0 HVACState_default.
Proof.
  assert (H8 : fan_speed HVACState_default <= 8) by (simpl; lia).
  assert (H0 : 0 <= fan_speed HVACState_default) by (simpl; lia).
  destruct (fan_steps_saturate 20 HVACState_default) as [Hup Hdown].
  destruct (Hup H8) as [Hu Hl]. destruct (Hdown H0) as [Hd _].
  split; [exact H8|]. split; [exact H0|].
  split; [exact Hu|]. split; [exact Hl | exact Hd].
Defined.

(* ================================================================== *)
(** ** The display follows the state *)
(* ================================================================== *)

Lemma shown_app (c : list canvas_item) (out1 out2 : list event) :
  shown c (out1 ++ out2) = shown (shown c out1) out2.
Proof. apply fold_left_app. Qed.

Lemma call_shown (key : string) (s : HVACState) :
  shown (HVACDisplay.draw s) (events_of (FordFGHVACApp.call key) s) =
  HVACDisplay.draw (state_after (FordFGHVACApp.call key) s).
Proof.
  pattern (FordFGHVACApp.call key). apply call_cases; try reflexivity;
    unfold events_of, state_after;
    rewrite ?run_fan_up, ?run_fan_down, ?run_temp_up, ?run_temp_down;
    match goal with |- context [if ?b then _ else _] => destruct b end;
    reflexivity.
Qed.

Lemma perform_shown (a : action) (s : HVACState) :
  shown (HVACDisplay.draw s) (events_of (perform a) s) =
  HVACDisplay.draw (state_after (perform a) s).
Proof.
  destruct a as [key | x | x | h m]; cbn [perform].
  - apply call_shown.
  - unfold FordFGHVACApp.click_button. rewrite button_click_is_call.
    apply call_shown.
  - unfold FordFGHVACApp.click_slider. rewrite slider_click_is_calls.
    destruct (zone_calls x); [reflexivity | apply call_shown].
  - reflexivity.
Qed.

Lemma perform_all_shown (acts : list action) (s : HVACState) :
  shown (HVACDisplay.draw s) (events_of (perform_all acts) s) =
  HVACDisplay.draw (state_after (perform_all acts) s).
Proof.
  revert s. induction acts as [| a rest IH]; intros s; cbn [perform_all].
  - reflexivity.
  - rewrite events_of_bind, state_after_bind, shown_app, perform_shown. apply IH.
Qed.

(** X9. The display is never stale: after start-up at any time of day and
    any sequence of commands, clicks and clock ticks, the canvas of the
    display (the content of its last redraw) is [draw] of the current state;
    whatever changes the state redraws after the change. *)
Theorem display_never_stale (now_hour now_minute : Z) (acts : list action)
        (s0 : HVACState) (canvas0 : list canvas_item) :
  shown canvas0 (events_of (session now_hour now_minute acts) s0) =
  HVACDisplay.draw (state_after (session now_hour now_minute acts) s0).
Proof.
  unfold session. rewrite events_of_bind, state_after_bind, shown_app.
  change (shown canvas0 (events_of (__init__ now_hour now_minute) s0))
    with (HVACDisplay.draw (state_after (__init__ now_hour now_minute) s0)).
  apply perform_all_shown.
Qed.

(* ================================================================== *)
(** ** Reading the clock, the temperature and the fan level off the display *)
(* ================================================================== *)

Lemma flat_map_nil_Forall {A B : Type} (f : A -> list B) (P : A -> Prop) (l : list A) :
  (forall a, P a -> f a = []) -> Forall P l -> flat_map f l = [].
Proof.
  intros Hf Hl. induction Hl as [| a l Ha _ IH]; cbn.
  - reflexivity.
  - now rewrite (Hf a Ha), IH.
Qed.

Lemma filter_nil_Forall {A : Type} (f : A -> bool) (P : A -> Prop) (l : list A) :
  (forall a, P a -> f a = false) -> Forall P l -> filter f l = [].
Proof.
  intros Hf Hl. induction Hl as [| a l Ha _ IH]; cbn.
  - reflexivity.
  - now rewrite (Hf a Ha), IH.
Qed.

Lemma draw_7seg_items (x y : Z) (digit size : string) :
  Forall is_glyph_item (HVACDisplay._draw_7seg x y digit size).
Proof.
  unfold HVACDisplay._draw_7seg, HVACDisplay.when.
  destruct (String.eqb size "large");
    destruct (Py.dict_get _ _ _) as [[[[[[sa sb] sc] sd] se] sf] sg];
    repeat match goal with |- context [Py.truthy ?n] => destruct (Py.truthy n) end;
    repeat constructor.
Qed.

Lemma glyph_row_items (chars : list string) (x : Z) :
  Forall is_glyph_item (glyph_row x chars).
Proof.
  revert x. induction chars as [| c rest IH]; intros x; cbn [glyph_row].
  - constructor.
  - apply Forall_app. split; [|apply IH]. unfold glyph.
    destruct (String.eqb c "."); [repeat constructor | apply draw_7seg_items].
Qed.

Lemma draw_fan_items (s : HVACState) : Forall is_fan_item (HVACDisplay.draw_fan s).
Proof.
  unfold HVACDisplay.draw_fan. apply Forall_app. split.
  - repeat constructor.
  - apply Forall_forall. intros it Hin. apply in_map_iff in Hin as (i & <- & _).
    destruct (i <? fan_speed s); exact I.
Qed.

Lemma draw_set_temp_row (s : HVACState) :
  HVACDisplay.draw_set_temp s =
  (create_text 480 12 "Set Temp" (mkFont "Arial" 10 false) anchor_w
   :: glyph_row HVACDisplay.temp_x (Py.chars (Py.format_04_1f (set_temp s))) ++
   [create_text (row_end HVACDisplay.temp_x (Py.chars (Py.format_04_1f (set_temp s))) + 5)
                (HVACDisplay.temp_y + 5) "°" (mkFont "Arial" 14 true) anchor_w])%list.
Proof.
  unfold HVACDisplay.draw_set_temp. rewrite draw_temp_chars. reflexivity.
Qed.

Lemma clock_text_glyphs (l : list canvas_item) :
  Forall is_glyph_item l -> clock_text l = [].
Proof.
  apply flat_map_nil_Forall. intros it H. destruct it; try destruct H; reflexivity.
Qed.

Lemma clock_text_fan (l : list canvas_item) :
  Forall is_fan_item l -> clock_text l = [].
Proof.
  apply flat_map_nil_Forall. intros it H. destruct it; try destruct H; reflexivity.
Qed.

Lemma clock_text_app (l1 l2 : list canvas_item) :
  clock_text (l1 ++ l2) = (clock_text l1 ++ clock_text l2)%list.
Proof. apply flat_map_app. Qed.

Lemma clock_text_draw (s : HVACState) :
  clock_text (HVACDisplay.draw s) =
  [(Py.format_02d (hours s) ++ ":" ++ Py.format_02d (minutes s))%string].
Proof.
  unfold HVACDisplay.draw. rewrite !clock_text_app, draw_set_temp_row.
  change (?a :: ?l ++ ?r)%list with ([a] ++ l ++ r)%list.
  rewrite !clock_text_app.
  rewrite (clock_text_glyphs _ (glyph_row_items _ _)).
  rewrite (clock_text_fan _ (draw_fan_items s)).
  reflexivity.
Qed.

Lemma format_02d_digits (n : Z) : 0 <= n <= 99 ->
  Py.format_02d n =
  String (digit_char (n / 10)) (String (digit_char (n mod 10)) EmptyString).
Proof.
  intros Hn. assert (H : 0 <= n < 0 + Z.of_nat 100) by lia. clear Hn.
  revert n H. apply Z_between_cases.
  each_case ltac:(vm_compute; reflexivity).
Qed.

Lemma digit_char_inj (a b : Z) :
  0 <= a <= 9 -> 0 <= b <= 9 -> digit_char a = digit_char b -> a = b.
Proof.
  intros Ha Hb E. apply (f_equal nat_of_ascii) in E. unfold digit_char in E.
  rewrite !nat_ascii_embedding in E by lia. lia.
Qed.

(** X10. A clock tick overwrites the time: whatever the clock showed, after
    a tick at [h]:[m] the state holds [h] and [m], every other field is as
    before, the display has been redrawn once from the new state and one
    timer is scheduled 1000 ms ahead; for a time of day the clock text on
    the display is the five characters HH:MM. *)
Theorem clock_tick (h m : Z) (s : HVACState) :
  0 <= h <= 23 -> 0 <= m <= 59 ->
  let s' := with_minutes m (with_hours h s) in
  FordFGHVACApp._update_clock h m s =
    (tt, s', [Redraw (HVACDisplay.draw s'); After 1000]) /\
  clock_text (HVACDisplay.draw s') = [hh_mm h m] /\
  (forall h0 m0,
     state_after (FordFGHVACApp._update_clock h m)
                 (state_after (FordFGHVACApp._update_clock h0 m0) s) = s').
Proof.
  intros Hh Hm. cbv zeta. split; [reflexivity|]. split.
  - rewrite clock_text_draw. cbn [hours minutes with_hours with_minutes].
    rewrite !format_02d_digits by lia. reflexivity.
  - intros h0 m0. reflexivity.
Qed.

Lemma clock_tick_witness :
  0 <= 14 <= 23 /\ 0 <= 5 <= 59 /\
  clock_text (HVACDisplay.draw (with_minutes 5 (with_hours 14 HVACState_default)))
  = ["14:05"].
Proof.
  split; [lia|]. split; [lia|].
  exact (proj1 (proj2 (clock_tick 14 5 HVACState_default ltac:(lia) ltac:(lia)))).
Defined.

Lemma range_length (n : nat) : List.length (Py.range n) = n.
Proof. unfold Py.range. now rewrite length_map, length_seq. Qed.

Lemma fan_cases (n : Z) :
  n <= 0 \/ n = 1 \/ n = 2 \/ n = 3 \/ n = 4 \/ n = 5 \/ n = 6 \/ n = 7 \/ 8 <= n.
Proof. lia. Qed.

Lemma draw_fan_bars (s : HVACState) :
  let n := Z.to_nat (clamp 0 8 (fan_speed s)) in
  HVACDisplay.draw_fan s =
  (HVACDisplay._draw_snowflake 462 95 ++
   map (bar true) (Py.range n) ++
   map (bar false) (map (fun i => Z.of_nat n + i) (Py.range (8 - n))))%list.
Proof.
  cbv zeta. unfold HVACDisplay.draw_fan, clamp.
  change (Py.range 8) with [0; 1; 2; 3; 4; 5; 6; 7]. cbn [map].
  destruct (fan_cases (fan_speed s)) as [H|[H|[H|[H|[H|[H|[H|[H|H]]]]]]]];
    [ replace (Z.max 0 (Z.min 8 (fan_speed s))) with 0 by lia
    | rewrite H .. 
    | replace (Z.max 0 (Z.min 8 (fan_speed s))) with 8 by lia ];
    decide_cmp; reflexivity.
Qed.

Lemma filled_bars (b : bool) (l : list Z) :
  filter is_filled_rectangle (map (bar b) l) = if b then map (bar b) l else [].
Proof.
  induction l as [| i l IH]; [now destruct b|].
  cbn [map filter]. rewrite IH. now destruct b.
Qed.

Lemma hollow_bars (b : bool) (l : list Z) :
  filter is_hollow_rectangle (map (bar b) l) = if b then [] else map (bar b) l.
Proof.
  induction l as [| i l IH]; [now destruct b|].
  cbn [map filter]. rewrite IH. now destruct b.
Qed.

Lemma no_rectangle_in_glyphs (f : canvas_item -> bool) (l : list canvas_item) :
  (f = is_filled_rectangle \/ f = is_hollow_rectangle) ->
  Forall is_glyph_item l -> filter f l = [].
Proof.
  intros Hf. apply filter_nil_Forall. intros it H.
  destruct Hf as [-> | ->]; destruct it; try destruct H; reflexivity.
Qed.

Lemma rectangles_of_draw (f : canvas_item -> bool) (s : HVACState) :
  (f = is_filled_rectangle \/ f = is_hollow_rectangle) ->
  filter f (HVACDisplay.draw s) = filter f (HVACDisplay.draw_fan s).
Proof.
  intros Hf. unfold HVACDisplay.draw. rewrite !filter_app, draw_set_temp_row.
  change (?a :: ?l ++ ?r)%list with ([a] ++ l ++ r)%list.
  rewrite !filter_app, (no_rectangle_in_glyphs f _ Hf (glyph_row_items _ _)).
  destruct Hf as [-> | ->];
    match goal with
    | |- context [filter ?g (HVACDisplay.draw_clock s)] =>
        change (filter g (HVACDisplay.draw_clock s)) with (@nil canvas_item);
        change (filter g HVACDisplay.draw_icons) with (@nil canvas_item);
        change (filter g HVACDisplay.draw_outside_temp) with (@nil canvas_item);
        change (filter g HVACDisplay.draw_bottom) with (@nil canvas_item)
    end;
    cbn [filter app is_filled_rectangle is_hollow_rectangle]; apply app_nil_r.
Qed.

Lemma fan_bar_counts (s : HVACState) :
  let n := Z.to_nat (clamp 0 8 (fan_speed s)) in
  List.length (filter is_filled_rectangle (HVACDisplay.draw s)) = n /\
  List.length (filter is_hollow_rectangle (HVACDisplay.draw s)) = (8 - n)%nat.
Proof.
  cbv zeta.
  rewrite !rectangles_of_draw by tauto. rewrite draw_fan_bars. cbv zeta.
  rewrite !filter_app, !filled_bars, !hollow_bars.
  cbn [filter HVACDisplay._draw_snowflake Py.range_step map seq app
       is_filled_rectangle is_hollow_rectangle].
  rewrite app_nil_r, !length_map, !range_length. split; reflexivity.
Qed.

(** X11. The fan bar shows the fan speed: of its eight rectangles the
    leftmost [fan_speed] are filled and the others outlined, [fan_speed]
    being taken as 0 when negative and 8 when above 8; and these are the
    only rectangles on the display. *)
Theorem fan_bar_shows_fan_speed (s : HVACState) :
  let n := Z.to_nat (clamp 0 8 (fan_speed s)) in
  HVACDisplay.draw_fan s =
    (HVACDisplay._draw_snowflake 462 95 ++
     map (bar true) (Py.range n) ++
     map (bar false) (map (fun i => Z.of_nat n + i) (Py.range (8 - n))))%list /\
  List.length (filter is_filled_rectangle (HVACDisplay.draw s)) = n /\
  List.length (filter is_hollow_rectangle (HVACDisplay.draw s)) = (8 - n)%nat.
Proof.
  cbv zeta. split; [apply draw_fan_bars | apply fan_bar_counts].
Qed.

Lemma list_eqb_refl {A : Type} (eqb : A -> A -> bool) (l : list A) :
  (forall a, eqb a a = true) -> list_eqb eqb l l = true.
Proof.
  intros H. induction l as [| a l IH]; [reflexivity|].
  cbn. now rewrite H, IH.
Qed.

Lemma pairwise_check {A : Type} (f : A -> A -> bool) (l : list A) :
  forallb (fun i => forallb (f i) l) l = true ->
  forall i j, In i l -> In j l -> f i j = true.
Proof.
  intros H i j Hi Hj. rewrite forallb_forall in H. specialize (H i Hi).
  rewrite forallb_forall in H. exact (H j Hj).
Qed.

Lemma all_told_apart :
  forallb (fun i => forallb (told_apart i) half_degree_range) half_degree_range = true.
Proof. vm_compute. reflexivity. Qed.

Lemma in_half_degree_range (k : Z) : 32 <= k <= 64 -> In k half_degree_range.
Proof.
  intros Hk. apply in_map_iff. exists (Z.to_nat (k - 32)).
  split; [lia | apply in_seq; lia].
Qed.

Lemma segments_inj (i j : Z) :
  32 <= i <= 64 -> 32 <= j <= 64 ->
  segments_of_half_degrees i = segments_of_half_degrees j -> i = j.
Proof.
  intros Hi Hj E.
  pose proof (pairwise_check told_apart half_degree_range all_told_apart i j
                (in_half_degree_range i Hi) (in_half_degree_range j Hj)) as H.
  unfold told_apart in H. rewrite E, list_eqb_refl in H.
  - apply Z.eqb_eq. destruct (i =? j); [reflexivity | discriminate H].
  - intros a. apply list_eqb_refl, Z.eqb_refl.
Qed.

Lemma temp_segments_app (l1 l2 : list canvas_item) :
  temp_segments (l1 ++ l2) = (temp_segments l1 ++ temp_segments l2)%list.
Proof. apply flat_map_app. Qed.

Lemma temp_segments_fan (l : list canvas_item) :
  Forall is_fan_item l -> temp_segments l = [].
Proof.
  apply flat_map_nil_Forall. intros it H. destruct it; try destruct H; reflexivity.
Qed.

Lemma temp_segments_draw (s : HVACState) (k : Z) :
  set_temp s = half_degrees k ->
  temp_segments (HVACDisplay.draw s) = segments_of_half_degrees k.
Proof.
  intros E. unfold HVACDisplay.draw. rewrite !temp_segments_app.
  rewrite (temp_segments_fan _ (draw_fan_items s)).
  unfold segments_of_half_degrees, HVACDisplay.draw_set_temp.
  cbn [set_temp with_set_temp]. rewrite E.
  change (temp_segments (HVACDisplay.draw_clock s)) with (@nil (list Z)).
  change (temp_segments HVACDisplay.draw_icons) with (@nil (list Z)).
  change (temp_segments HVACDisplay.draw_outside_temp) with (@nil (list Z)).
  change (temp_segments HVACDisplay.draw_bottom) with (@nil (list Z)).
  cbn [app]. now rewrite app_nil_r.
Qed.

(** X12. The display tells the state it was drawn from: two states with a
    valid time of day, a temperature that is a multiple of 0.5 in range and
    a fan speed in range that are drawn alike have the same [hours],
    [minutes], [set_temp] and [fan_speed]. *)
Theorem display_tells_state (s s' : HVACState) :
  invariant s -> valid_clock s -> invariant s' -> valid_clock s' ->
  HVACDisplay.draw s = HVACDisplay.draw s' ->
  hours s = hours s' /\ minutes s = minutes s' /\
  set_temp s = set_temp s' /\ fan_speed s = fan_speed s'.
Proof.
  intros [Ht Hf] [Hh Hm] [Ht' Hf'] [Hh' Hm'] E.
  assert (Eclock := f_equal clock_text E).
  rewrite !clock_text_draw, !format_02d_digits in Eclock by lia.
  injection Eclock as E1 E2 E3 E4.
  apply digit_char_inj in E1, E2, E3, E4;
    try (split; [apply Z.div_pos | apply Z.lt_succ_r, Z.div_lt_upper_bound]; lia);
    try (apply (Z.mod_pos_bound _ 10) || (pose proof (Z.mod_pos_bound (hours s) 10);
         pose proof (Z.mod_pos_bound (hours s') 10);
         pose proof (Z.mod_pos_bound (minutes s) 10);
         pose proof (Z.mod_pos_bound (minutes s') 10); lia)).
  assert (Efan : fan_speed s = fan_speed s').
  { pose proof (f_equal (fun c => List.length (filter is_filled_rectangle c)) E) as En.
    cbv beta in En.
    rewrite (proj1 (fan_bar_counts s)), (proj1 (fan_bar_counts s')) in En.
    unfold fan_in_range, clamp in *. lia. }
  apply multiple_of_half_in_range_inv in Ht as (k & Hk & Ek).
  apply multiple_of_half_in_range_inv in Ht' as (k' & Hk' & Ek').
  assert (Etemp := f_equal temp_segments E).
  rewrite (temp_segments_draw s k Ek), (temp_segments_draw s' k' Ek') in Etemp.
  apply segments_inj in Etemp; [|lia|lia].
  rewrite (Z.div_mod (hours s) 10), (Z.div_mod (hours s') 10),
    (Z.div_mod (minutes s) 10), (Z.div_mod (minutes s') 10) by lia.
  rewrite E1, E2, E3, E4, Ek, Ek', Etemp. auto.
Qed.

Lemma display_tells_state_witness :
  let s := HVACState_default in
  let s' := with_rear_defrost false (with_outside_temp 30 HVACState_default) in
  invariant s /\ valid_clock s /\ invariant s' /\ valid_clock s' /\
  HVACDisplay.draw s = HVACDisplay.draw s' /\
  hours s = hours s' /\ minutes s = minutes s' /\
  set_temp s = set_temp s' /\ fan_speed s = fan_speed s'.
Proof.
  cbv zeta.
  assert (Hi : invariant HVACState_default).
  { split.
    - eexists. split; [vm_compute; reflexivity|].
      split; [split; vm_compute; discriminate | exists 47; vm_compute; reflexivity].
    - unfold fan_in_range. simpl. lia. }
  assert (Hc : valid_clock HVACState_default) by (unfold valid_clock; simpl; lia).
  split; [exact Hi|]. split; [exact Hc|]. split; [exact Hi|]. split; [exact Hc|].
  split; [reflexivity|].
  exact (display_tells_state HVACState_default
           (with_rear_defrost false (with_outside_temp 30 HVACState_default))
           Hi Hc Hi Hc eq_refl).
Defined.

(* ================================================================== *)
(** ** Glyphs *)
(* ================================================================== *)

Ltac glyphs_differ H :=
  cbn in H; inversion H; lia.

(** X13. No two characters of the pattern table share a glyph: at any
    position and in either size, two different keys are drawn as different
    lists of segments. *)
Theorem glyphs_distinct (d1 d2 : string) (x y : Z) (size : string) :
  In d1 (Py.keys HVACDisplay.patterns) -> In d2 (Py.keys HVACDisplay.patterns) ->
  d1 <> d2 ->
  HVACDisplay._draw_7seg x y d1 size <> HVACDisplay._draw_7seg x y d2 size.
Proof.
  intros H1 H2 Hne E. unfold HVACDisplay._draw_7seg in E.
  destruct (String.eqb size "large");
    cbn in H1, H2;
    repeat match type of H1 with _ \/ _ => destruct H1 as [H1 | H1] end;
    try contradiction; subst d1;
    repeat match type of H2 with _ \/ _ => destruct H2 as [H2 | H2] end;
    try contradiction; subst d2;
    try (apply Hne; reflexivity);
    glyphs_differ E.
Qed.

Lemma glyphs_distinct_witness :
  In "3" (Py.keys HVACDisplay.patterns) /\ In "8" (Py.keys HVACDisplay.patterns) /\
  "3" <> "8" /\
  HVACDisplay._draw_7seg 455 28 "3" "large" <> HVACDisplay._draw_7seg 455 28 "8" "large".
Proof.
  assert (H3 : In "3" (Py.keys HVACDisplay.patterns)) by (cbn; tauto).
  assert (H8 : In "8" (Py.keys HVACDisplay.patterns)) by (cbn; tauto).
  assert (Hne : "3" <> "8") by discriminate.
  split; [exact H3|]. split; [exact H8|]. split; [exact Hne|].
  exact (glyphs_distinct "3" "8" 455 28 "large" H3 H8 Hne).
Defined.

(* ================================================================== *)
(** ** What is drawn on a panel is where it is clicked *)
(* ================================================================== *)

Lemma within_inside (lo hi : Z) (spans : list (Z * Z)) (x : Z) :
  spans_inside lo hi spans = true -> within spans x -> lo <= x <= hi.
Proof.
  unfold spans_inside. rewrite forallb_forall.
  intros H (a & b & Ha & Hb & Hx).
  pose proof (H a Ha) as Ea. pose proof (H b Hb) as Eb.
  apply andb_prop in Ea as [Ea _]. apply andb_prop in Eb as [_ Eb].
  apply Z.leb_le in Ea, Eb. lia.
Qed.

Lemma part_bounds (lo hi : Z) (part : list canvas_item) (it : canvas_item) (x : Z) :
  forallb (fun it => spans_inside lo hi (x_spans it)) part = true ->
  In it part -> covers it x -> lo <= x <= hi.
Proof.
  intros H Hin Hc. rewrite forallb_forall in H.
  exact (within_inside lo hi _ x (H it Hin) Hc).
Qed.

Lemma button_bounds (i : nat) (section : list panel_item) :
  nth_error HVACButtonsDraw.buttons i = Some section ->
  forallb (fun it => spans_inside (72 * Z.of_nat i) (72 * Z.of_nat i + 71)
                                  (panel_x_spans it)) section = true.
Proof.
  intros Hs.
  do 8 (destruct i as [| i]; [injection Hs as <-; vm_compute; reflexivity|]).
  destruct i; discriminate Hs.
Qed.

(** X14. The buttons are drawn where they are clicked: every item that
    [draw] creates for the [i]-th button of the button panel (the anchor of
    a label, the full extent of every other item) lies in the [i]-th band,
    so a click anywhere on it calls the callback of that button; and the
    divider lines are drawn exactly where the callback changes. *)
Theorem buttons_drawn_in_their_band (i : nat) (section : list panel_item)
        (name : string) (it : panel_item) (x : Z) :
  nth_error HVACButtonsDraw.buttons i = Some section ->
  nth_error button_names i = Some name ->
  In it section -> panel_covers it x ->
  button_calls x = [name] /\
  (forall d, nth_error HVACButtons.dividers i = Some d ->
             button_calls (d - 1) = [name] /\ button_calls d <> [name]).
Proof.
  intros Hs Hn Hin Hc.
  pose proof (button_bounds i section Hs) as Hall.
  rewrite forallb_forall in Hall.
  pose proof (within_inside _ _ _ x (Hall it Hin) Hc) as Hx. clear Hall Hs Hin Hc.
  unfold button_calls, HVACButtons._on_click.
  do 8 (destruct i as [| i];
        [ injection Hn as <-; split;
          [ decide_cmp; reflexivity
          | intros d Hd;
            first [ discriminate Hd
                  | injection Hd as <-; split; [reflexivity | discriminate] ] ]
        |]).
  destruct i; discriminate Hn.
Qed.

Lemma buttons_drawn_in_their_band_witness :
  let hazard := item (create_polygon [324; 8; 308; 32; 340; 32] false 2) in
  nth_error HVACButtonsDraw.buttons 4 = Some [hazard] /\
  nth_error button_names 4 = Some "hazard" /\
  In hazard [hazard] /\ panel_covers hazard 310 /\
  button_calls 310 = ["hazard"].
Proof.
  cbv zeta.
  set (hazard := item (create_polygon [324; 8; 308; 32; 340; 32] false 2)).
  assert (Hc : panel_covers hazard 310).
  { exists (308, 308), (340, 340). cbn. repeat split; try tauto; lia. }
  split; [reflexivity|]. split; [reflexivity|]. split; [left; reflexivity|].
  split; [exact Hc|].
  exact (proj1 (buttons_drawn_in_their_band 4 [hazard] "hazard" hazard 310
                  eq_refl eq_refl (or_introl eq_refl) Hc)).
Defined.

Ltac zone_of_part lo hi :=
  let Hin := fresh "Hin" in
  let Hb := fresh "Hb" in
  intros Hin;
  match goal with
  | Hc : covers ?it ?x |- _ =>
      assert (Hb : lo <= x <= hi)
        by (apply (fun H => part_bounds lo hi _ it x H Hin Hc);
            vm_compute; reflexivity)
  end;
  unfold slider_calls, HVACSliders._on_click; decide_cmp; reflexivity.

(** X15. The slider controls are drawn where they are clicked: the LED and
    the arrow (or minus, or plus) of each side of each control lie in the
    zone that calls the command of that side, and the seat and fan icons
    and the tick tracks lie in the dead zones; except that the leftmost
    tick of the passenger track, at x = 47, lies in the decrement zone. *)
Theorem slider_parts_in_their_zones (it : canvas_item) (x : Z) :
  covers it x ->
  (In it (HVACSlidersDraw.temp_down_part 97 20) -> slider_calls x = ["pass_temp_down"]) /\
  (In it (HVACSlidersDraw.temp_up_part 97 20) -> slider_calls x = ["pass_temp_up"]) /\
  (In it (HVACSlidersDraw.fan_down_part 290 20) -> slider_calls x = ["fan_down"]) /\
  (In it (HVACSlidersDraw.fan_up_part 290 20) -> slider_calls x = ["fan_up"]) /\
  (In it (HVACSlidersDraw.temp_down_part 483 20) -> slider_calls x = ["drv_temp_down"]) /\
  (In it (HVACSlidersDraw.temp_up_part 483 20) -> slider_calls x = ["drv_temp_up"]) /\
  (In it (HVACSlidersDraw._draw_small_seat 97 22) -> slider_calls x = []) /\
  (In it (HVACSlidersDraw.fan_ticks 290 20) -> slider_calls x = []) /\
  (In it (HVACSlidersDraw._draw_small_fan 295 20) -> slider_calls x = []) /\
  (In it (HVACSlidersDraw.temp_ticks 483 20) -> slider_calls x = []) /\
  (In it (HVACSlidersDraw._draw_small_seat 483 22) -> slider_calls x = []) /\
  (In it (HVACSlidersDraw.temp_ticks 97 20) ->
   slider_calls x = [] \/
   (it = create_line [px 47; px 15; px 47; px 25] 1 false /\
    slider_calls x = ["pass_temp_down"])).
Proof.
  intros Hc.
  split; [zone_of_part 12 37|]. split; [zone_of_part 157 182|].
  split; [zone_of_part 205 235|]. split; [zone_of_part 345 375|].
  split; [zone_of_part 398 423|]. split; [zone_of_part 543 568|].
  split; [zone_of_part 93 105|]. split; [zone_of_part 245 311|].
  split; [zone_of_part 290 300|]. split; [zone_of_part 433 510|].
  split; [zone_of_part 479 491|].
  intros Hin. cbn in Hin. destruct Hin as [<- | Hin].
  - right. split; [reflexivity|].
    destruct Hc as (a & b & Ha & Hb & Hx). cbn in Ha, Hb.
    destruct Ha as [<- | [<- | []]], Hb as [<- | [<- | []]]; cbn in Hx;
      replace x with 47 by lia; reflexivity.
  - left. revert Hin.
    change (In it (tl (HVACSlidersDraw.temp_ticks 97 20)) -> slider_calls x = []).
    zone_of_part 54 124.
Qed.

Lemma slider_parts_in_their_zones_witness :
  let arrow := create_polygon [27; 20; 37; 14; 37; 26] true 1 in
  let tick := create_line [px 47; px 15; px 47; px 25] 1 false in
  covers arrow 30 /\ In arrow (HVACSlidersDraw.temp_down_part 97 20) /\
  slider_calls 30 = ["pass_temp_down"] /\
  covers tick 47 /\ In tick (HVACSlidersDraw.temp_ticks 97 20) /\
  slider_calls 47 = ["pass_temp_down"].
Proof.
  cbv zeta.
  assert (Hc : covers (create_polygon [27; 20; 37; 14; 37; 26] true 1) 30).
  { exists (27, 27), (37, 37). cbn. repeat split; try tauto; lia. }
  assert (Hin : In (create_polygon [27; 20; 37; 14; 37; 26] true 1)
                   (HVACSlidersDraw.temp_down_part 97 20))
    by (right; left; reflexivity).
  assert (Hc' : covers (create_line [px 47; px 15; px 47; px 25] 1 false) 47).
  { exists (47, 47), (47, 47). cbn. repeat split; try tauto; lia. }
  assert (Hin' : In (create_line [px 47; px 15; px 47; px 25] 1 false)
                    (HVACSlidersDraw.temp_ticks 97 20))
    by (left; reflexivity).
  split; [exact Hc|]. split; [exact Hin|].
  split; [exact (proj1 (slider_parts_in_their_zones _ 30 Hc) Hin)|].
  split; [exact Hc'|]. split; [exact Hin'|]. reflexivity.
Defined.

(* ================================================================== *)
(** ** Which states can be reached *)
(* ================================================================== *)








(* ================================================================== *)
(** ** What a callback emits *)
(* ================================================================== *)

(** X17. A name that is not bound in [self.callbacks] runs the default
    [lambda: None]: the state is unchanged and nothing is printed or
    redrawn. *)
Theorem unbound_callback_is_noop (key : string) (s : HVACState) :
  ~ In key (Py.keys FordFGHVACApp.callbacks) ->
  FordFGHVACApp.call key s = (tt, s, []).
Proof.
  intros Hn. unfold FordFGHVACApp.call.
  now rewrite (dict_get_not_in FordFGHVACApp.callbacks key (ret tt) Hn).
Qed.

Lemma unbound_callback_is_noop_witness :
  ~ In "defrost" (Py.keys FordFGHVACApp.callbacks) /\
  FordFGHVACApp.call "defrost" HVACState_default = (tt, HVACState_default, []).
Proof.
  assert (Hn : ~ In "defrost" (Py.keys FordFGHVACApp.callbacks))
    by (cbn; intuition discriminate).
  split; [exact Hn | exact (unbound_callback_is_noop "defrost" HVACState_default Hn)].
Defined.

(** X18. A callback prints at most one line and redraws at most once, the
    line before the redraw; it never schedules a timer; and one that does
    not redraw has left the state as it was. *)
Theorem callback_effects (key : string) (s : HVACState) :
  let out := events_of (FordFGHVACApp.call key) s in
  let s' := state_after (FordFGHVACApp.call key) s in
  (out = [] \/ (exists l, out = [Print l]) \/
   (exists l, out = [Print l; Redraw (HVACDisplay.draw s')])) /\
  (redraws out = [] -> s' = s).
Proof.
  cbv zeta. pattern (FordFGHVACApp.call key). apply call_cases;
    try (split; [right; left; eexists; reflexivity | reflexivity]);
    try (split; [right; right; eexists; reflexivity | discriminate]);
    try (split; [left; reflexivity | reflexivity]);
    unfold events_of, state_after;
    rewrite ?run_fan_up, ?run_fan_down, ?run_temp_up, ?run_temp_down;
    match goal with |- context [if ?b then _ else _] => destruct b end;
    solve [ split; [left; reflexivity | reflexivity]
          | split; [right; right; eexists; reflexivity | discriminate] ].
Qed.


Lemma callbacks_wired_witness :
  In "fan_up" (Py.keys FordFGHVACApp.callbacks) /\
  exists x, 0 <= x < 580 /\ (button_calls x = ["fan_up"] \/ slider_calls x = ["fan_up"]).
Proof.
  assert (H : In "fan_up" (Py.keys FordFGHVACApp.callbacks)) by (cbn; tauto).
  split; [exact H | exact (proj1 (callbacks_wired "fan_up") H)].
Defined.

(* ================================================================== *)
(** ** A glyph stays in its cell *)
(* ================================================================== *)

Lemma within_between (lo hi : Z) (spans : list (Z * Z)) (x : Z) :
  Forall (fun s => lo <= fst s /\ snd s <= hi) spans ->
  within spans x -> lo <= x <= hi.
Proof.
  rewrite Forall_forall. intros H (a & b & Ha & Hb & Hx).
  pose proof (H a Ha). pose proof (H b Hb). lia.
Qed.

Lemma when_Forall (P : canvas_item -> Prop) (cond : Z) (items : list canvas_item) :
  Forall P items -> Forall P (HVACDisplay.when cond items).
Proof. unfold HVACDisplay.when. destruct (Py.truthy cond); [auto | constructor]. Qed.

(** X19. A glyph stays in its cell: whatever the character, every segment
    that [_draw_7seg] creates at [x] lies between [x] and [x + 24] in the
    large size and between [x] and [x + 12] in any other size. *)
Theorem glyph_in_its_cell (x y : Z) (digit size : string) (it : canvas_item) (x' : Z) :
  In it (HVACDisplay._draw_7seg x y digit size) -> covers it x' ->
  x <= x' <= x + fst (glyph_box size).
Proof.
  intros Hin Hc.
  assert (H : Forall (fun it => forall x', covers it x' ->
                                           x <= x' <= x + fst (glyph_box size))
                     (HVACDisplay._draw_7seg x y digit size));
    [|rewrite Forall_forall in H; exact (H it Hin x' Hc)].
  clear it Hin x' Hc.
  unfold HVACDisplay._draw_7seg, glyph_box.
  destruct (String.eqb size "large");
    destruct (Py.dict_get _ _ _) as [[[[[[sa sb] sc] sd] se] sf] sg];
    repeat (apply Forall_app; split);
    apply when_Forall; (apply Forall_cons; [|apply Forall_nil]);
    intros x' Hc;
    apply (fun H => within_between _ _ _ x' H Hc);
    cbn; repeat (apply Forall_cons; [cbn; lia|]); apply Forall_nil.
Qed.

Lemma glyph_in_its_cell_witness :
  let top := create_polygon [460; 28; 474; 28; 472; 33; 462; 33] true 1 in
  In top (HVACDisplay._draw_7seg 455 28 "2" "large") /\ covers top 470 /\
  455 <= 470 <= 455 + 24.
Proof.
  cbv zeta.
  assert (Hin : In (create_polygon [460; 28; 474; 28; 472; 33; 462; 33] true 1)
                   (HVACDisplay._draw_7seg 455 28 "2" "large"))
    by (left; reflexivity).
  assert (Hc : covers (create_polygon [460; 28; 474; 28; 472; 33; 462; 33] true 1) 470).
  { exists (460, 460), (474, 474). cbn. repeat split; try tauto; lia. }
  split; [exact Hin|]. split; [exact Hc|].
  exact (glyph_in_its_cell 455 28 "2" "large" _ 470 Hin Hc).
Defined.
